(** * Pandoc filters: admonitions, super-links, two columns, LaTeX environments

    A shallow embedding of the four panflute filters of the repository
    ([adoc-admonitions.py], [super-links.py], [beamer-twocol.py],
    [divs-to-latex.py]) and the properties of their [action] functions.

    Python dictionaries ([elem.attributes], the configuration tables) are
    finite maps; module globals and the [doc] object are explicit records
    threaded through the calls; a Python exception is a value of [exn]. *)

From Stdlib Require Import String Ascii List Bool Arith Lia.
From stdpp Require Import base option gmap strings list fin_maps.

Set Warnings "-register-all".

Open Scope string_scope.

(** ** Python strings *)

Module PyStr.

(** [s.startswith(p)] *)
Fixpoint startswith (p s : string) : bool :=
  match p, s with
  | EmptyString, _ => true
  | String a p', String b s' => if Ascii.eqb a b then startswith p' s' else false
  | String _ _, EmptyString => false
  end.

(** [s[n:]] *)
Fixpoint drop (n : nat) (s : string) : string :=
  match n, s with
  | O, _ => s
  | S n', String _ s' => drop n' s'
  | S _, EmptyString => EmptyString
  end.

(** [s.endswith("/")]: the last character of [s] is a slash. *)
Fixpoint endswith_slash (s : string) : bool :=
  match s with
  | EmptyString => false
  | String c EmptyString => Ascii.eqb c "/"
  | String _ s' => endswith_slash s'
  end.

(** [s.removeprefix(p)] *)
Definition removeprefix (p s : string) : string :=
  if startswith p s then drop (String.length p) s else s.

(** [s.partition(sep)] at the first occurrence of a non-empty [sep]:
    [Some (before, after)], or [None] when [sep] does not occur. *)
Fixpoint split_once (sep s : string) : option (string * string) :=
  if startswith sep s then Some (EmptyString, drop (String.length sep) s)
  else match s with
       | EmptyString => None
       | String c s' =>
           match split_once sep s' with
           | Some (a, b) => Some (String c a, b)
           | None => None
           end
       end.

(** [s.split(sep, maxsplit)] for a non-empty [sep]: at most [maxsplit]
    cuts, hence at most [maxsplit + 1] pieces. *)
Fixpoint split (sep : string) (maxsplit : nat) (s : string) : list string :=
  match maxsplit with
  | O => [s]
  | S n =>
      match split_once sep s with
      | None => [s]
      | Some (a, b) => a :: split sep n b
      end
  end.

(** [urllib.parse.quote_plus]: the unreserved characters are kept, a space
    becomes [+], every other byte becomes [%XX] in upper-case hexadecimal. *)
Definition always_safe (c : ascii) : bool :=
  let n := nat_of_ascii c in
  ((65 <=? n)%nat && (n <=? 90)%nat) || ((97 <=? n)%nat && (n <=? 122)%nat)
  || ((48 <=? n)%nat && (n <=? 57)%nat)
  || Ascii.eqb c "_" || Ascii.eqb c "." || Ascii.eqb c "-" || Ascii.eqb c "~".

Definition hex_digit (n : nat) : ascii :=
  if (n <? 10)%nat then ascii_of_nat (48 + n) else ascii_of_nat (55 + n).

Fixpoint quote_plus (s : string) : string :=
  match s with
  | EmptyString => EmptyString
  | String c s' =>
      if always_safe c then String c (quote_plus s')
      else if Ascii.eqb c " " then String "+" (quote_plus s')
      else let n := nat_of_ascii c in
           String "%" (String (hex_digit (n / 16))
                         (String (hex_digit (n mod 16)) (quote_plus s')))
  end.

End PyStr.

(** ** Exceptions and results *)

Inductive exn : Type :=
| UnboundLocalError (name : string)
| IndexError
| KeyError (key : string)
| TypeError.

Inductive outcome (A : Type) : Type :=
| Ok (a : A)
| Raise (e : exn).
Arguments Ok {A} a.
Arguments Raise {A} e.

#[global] Instance outcome_ret : MRet outcome := fun A a => Ok a.
#[global] Instance outcome_bind : MBind outcome := fun A B k m =>
  match m with
  | Ok a => k a
  | Raise e => Raise e
  end.

(** ** Python dictionaries *)

(** [{**a, **b}]: every key of [a] and of [b]; on a common key the entry of
    [b] is taken. *)
Definition dict_merge {V : Type} (a b : gmap string V) : gmap string V :=
  b ∪ a.

(** [k in d] *)
Definition dict_has {V : Type} (k : string) (d : gmap string V) : bool :=
  bool_decide (is_Some (d !! k)).

(** ** The document tree (panflute elements) *)

Inductive Elem : Type :=
| Str (text : string)
| Space
| RawInline (text format : string)
| RawBlock (text format : string)
| HorizontalRule
| Para (content : list Elem)
| Plain (content : list Elem)
| BlockQuote (content : list Elem)
| Emph (content : list Elem)
| Note (content : list Elem)
| Div (content : list Elem) (identifier : string) (classes : list string)
      (attributes : gmap string string)
| Span (content : list Elem) (identifier : string) (classes : list string)
       (attributes : gmap string string)
| Link (content : list Elem) (url : string) (identifier : string)
       (classes : list string) (attributes : gmap string string).

(** What an [action] hands back to the traversal: [None] (the node is
    kept), one replacement node, or a list of nodes spliced in its place. *)
Inductive ret : Type :=
| RNone
| RElem (e : Elem)
| RList (l : list Elem).

(** Modelled from the spec: panflute's [stringify] is not part of the
    repository; the spec calls its result the flattened text content of the
    node. The text leaves are concatenated in document order, a [Space]
    counting as one blank. The filters below take the flattening function
    as a parameter; [flatten] is the instance used in the examples. *)
Fixpoint flatten (e : Elem) : string :=
  let flatten_list := fix go (l : list Elem) : string :=
    match l with
    | [] => ""
    | x :: r => flatten x ++ go r
    end in
  match e with
  | Str t => t
  | Space => " "
  | RawInline t _ => t
  | RawBlock t _ => t
  | HorizontalRule => ""
  | Para c | Plain c | BlockQuote c | Emph c | Note c => flatten_list c
  | Div c _ _ _ | Span c _ _ _ | Link c _ _ _ _ => flatten_list c
  end.

(** ** adoc-admonitions.py *)

Module Admonitions.

Definition FILTERNAME : string := "adoc-admonition".

Definition ADMONITIONS : gmap string string :=
  {[ "NOTE" := "note"; "TIP" := "tip"; "ERROR" := "error";
     "CODE" := "term"; "WARNING" := "warn"; "QUOTE" := "quote" ]}.

(** The [doc] object: the target format and the metadata table stored
    under [FILTERNAME] ([None] when the document has none). *)
Record Doc : Type := mkDoc {
  format : string;
  metadata : option (gmap string string)
}.

(** [doc.get_metadata(FILTERNAME, {})] *)
Definition get_metadata (doc : Doc) : gmap string string :=
  default ∅ (metadata doc).

(** The module globals the function touches: [META] is [None] as long as
    ['META' not in globals()]. *)
Record Globals : Type := mkGlobals {
  META : option (gmap string string)
}.

Definition fresh : Globals := {| META := None |}.

Section Host.
Variable stringify : Elem -> string.

(** [action(elem, doc)]. [META] and [admonitions] are assigned in the
    body, so both are local names of the function: [admonitions] is
    bound only on the path through the [if], and reading it on the
    other path raises [UnboundLocalError]. *)
Definition action (elem : Elem) (doc : Doc) (g : Globals)
  : outcome (ret * Globals) :=
  match elem with
  | Para _ =>
      let '(admonitions, g) :=
        match META g with
        | None =>
            let meta := get_metadata doc in
            (Some (dict_merge ADMONITIONS meta), {| META := Some meta |})
        | Some _ => (None, g)
        end in
      let text := stringify elem in
      if (String.length text =? 0)%nat then Ok (RNone, g)
      else
        let first_word := nth 0 (PyStr.split ": " 1 text) "" in
        match admonitions with
        | None => Raise (UnboundLocalError "admonitions")
        | Some admonitions =>
            match admonitions !! first_word with
            | None => Ok (RNone, g)
            | Some classname =>
                let newtext := PyStr.removeprefix (first_word ++ ": ") text in
                if bool_decide (format doc ∈ ["latex"; "beamer"]) then
                  Ok (RList [ RawBlock ("\begin{" ++ classname ++ "}") "tex";
                              Para [Str newtext];
                              RawBlock ("\end{" ++ classname ++ "}") "tex" ], g)
                else
                  Ok (RElem (Div [Para [Str newtext]] "" [classname] ∅), g)
            end
        end
  | _ => Ok (RNone, g)
  end.

(** The traversal of one run: [action] on each visited node in turn,
    the globals carried along; an exception ends the run. *)
Fixpoint visit (nodes : list Elem) (doc : Doc) (g : Globals)
  : outcome (list ret * Globals) :=
  match nodes with
  | [] => Ok ([], g)
  | e :: rest =>
      '(r, g1) ← action e doc g;
      '(rs, g2) ← visit rest doc g1;
      Ok (r :: rs, g2)
  end.

End Host.

End Admonitions.

(** ** super-links.py *)

Module SuperLinks.

Definition FILTERNAME : string := "super-links".
Definition IDNAME : string := "l".

(** A value of the link table: a string, a dictionary, or anything else
    the metadata may hold. Of a dictionary the function reads ["url"]
    (subscript: [KeyError] when absent), the truth value of
    [.get("encode")], and [.get("before", "")], [.get("after", "")]. *)
Record link_dict : Type := mkLinkDict {
  d_url : option string;
  d_encode : bool;
  d_before : option string;
  d_after : option string
}.

Inductive url_data : Type :=
| UStr (s : string)
| UDict (d : link_dict)
| UOther.

Definition LINKS0 : gmap string url_data :=
  {[ "wiki" := UDict (mkLinkDict (Some "https://en.wikipedia.org/wiki") true
                        (Some "") (Some ""));
     "pubmed" := UDict (mkLinkDict (Some "https://pubmed.ncbi.nlm.nih.gov/") false
                          (Some "pubmed:") None);
     "doi" := UDict (mkLinkDict (Some "https://doi.org/") false (Some "DOI:") None);
     "github" := UStr "https://github.com/";
     "youtube" := UStr "https://www.youtube.com/" ]}.

Record Doc : Type := mkDoc {
  format : string;
  metadata : option (gmap string url_data)
}.

(** [doc.get_metadata(FILTERNAME, {})] *)
Definition get_metadata (doc : Doc) : gmap string url_data :=
  default ∅ (metadata doc).

(** The module globals: the table [LINKS], rebound by the first call, and
    [META], [None] as long as ['META' not in globals()]. *)
Record Globals : Type := mkGlobals {
  LINKS : gmap string url_data;
  META : option (gmap string url_data)
}.

Definition fresh : Globals := {| LINKS := LINKS0; META := None |}.

(** [if title:] on the result of [attributes.get('title')] *)
Definition truthy (o : option string) : bool :=
  match o with
  | Some (String _ _) => true
  | _ => false
  end.

Section Host.
Variable stringify : Elem -> string.

(** [get_link_text(type, elem)], reading the global [LINKS];
    [attributes] is [elem.attributes]. *)
Definition get_link_text (LINKS : gmap string url_data) (type : string)
    (elem : Elem) (attributes : gmap string string)
  : outcome (string * string) :=
  let link_text := stringify elem in
  match LINKS !! type with
  | None => Raise (KeyError type)
  | Some url_data =>
      let title := attributes !! "title" in
      match url_data with
      | UStr s =>
          let slash := if PyStr.endswith_slash s then "" else "/" in
          let url := s ++ slash ++ link_text in
          let link_text := if truthy title then default "" title else link_text in
          Ok (link_text, url)
      | UDict d =>
          match d_url d with
          | None => Raise (KeyError "url")
          | Some u =>
              let slash := if PyStr.endswith_slash u then "" else "/" in
              let url :=
                if d_encode d then u ++ slash ++ PyStr.quote_plus link_text
                else u ++ slash ++ link_text in
              let link_text := if truthy title then default "" title else link_text in
              let prepend := default "" (d_before d) in
              let prepend := default prepend (attributes !! "before") in
              let link_text := prepend ++ link_text in
              let append := default "" (d_after d) in
              let append := default append (attributes !! "after") in
              let link_text := link_text ++ append in
              Ok (link_text, url)
          end
      | UOther => Ok (link_text, "")
      end
  end.

(** [action(elem, doc)]. [get_option(elem.attributes, "type")] raises
    [ValueError] when the attribute is absent, which the [except]
    branch turns into the first class, or leaves [type] empty. *)
Definition action (elem : Elem) (doc : Doc) (g : Globals)
  : outcome (ret * Globals) :=
  match elem with
  | Span _ identifier classes attributes =>
      let g :=
        match META g with
        | None =>
            let meta := get_metadata doc in
            {| LINKS := dict_merge (LINKS g) meta; META := Some meta |}
        | Some _ => g
        end in
      if negb (String.eqb identifier IDNAME) then Ok (RNone, g)
      else
        let type :=
          match attributes !! "type" with
          | Some t => t
          | None => match classes with
                    | c :: _ => c
                    | [] => ""
                    end
          end in
        if negb (dict_has type (LINKS g)) then Ok (RNone, g)
        else
          '(text, url) ← get_link_text (LINKS g) type elem attributes;
          Ok (RElem (Link [Str text] url "" classes attributes), g)
  | _ => Ok (RNone, g)
  end.

Fixpoint visit (nodes : list Elem) (doc : Doc) (g : Globals)
  : outcome (list ret * Globals) :=
  match nodes with
  | [] => Ok ([], g)
  | e :: rest =>
      '(r, g1) ← action e doc g;
      '(rs, g2) ← visit rest doc g1;
      Ok (r :: rs, g2)
  end.

End Host.

End SuperLinks.

(** ** beamer-twocol.py *)

Module TwoCol.

Definition DIVNAME : string := "twocol".

Record Doc : Type := mkDoc { format : string }.

(** The dictionary [{'left': {}, 'right': {}}]. *)
Record shared : Type := mkShared {
  left : gmap string string;
  right : gmap string string
}.

(** [split_attributes(attr, attr_name, shared_attr)]: updates
    [shared_attr] in place. *)
Definition split_attributes (attr attr_name : string) (shared_attr : shared)
  : shared :=
  let attrs := PyStr.split "," 2 attr in
  let l := <[attr_name := nth 0 attrs ""]> (left shared_attr) in
  let split_pos := if (1 <? length attrs)%nat then 1%nat else 0%nat in
  let r := <[attr_name := nth split_pos attrs ""]> (right shared_attr) in
  {| left := l; right := r |}.

(** [process_attributes(attributes)]: returns the left/right values and
    deletes the processed names from [attributes] (the second component
    is the dictionary after the call). *)
Definition process_attributes (attributes : gmap string string)
  : shared * gmap string string :=
  fold_left
    (fun '(sh, attributes) i =>
       match attributes !! i with
       | None => (sh, attributes)
       | Some v => (split_attributes v i sh, delete i attributes)
       end)
    ["align"; "width"]
    ({| left := ∅; right := ∅ |}, attributes).

Definition is_rule (e : Elem) : bool :=
  match e with
  | HorizontalRule => true
  | _ => false
  end.

(** [[i for i, d in enumerate(content) if isinstance(d, HorizontalRule)]],
    counting from [i]. *)
Fixpoint rulers (i : nat) (content : list Elem) : list nat :=
  match content with
  | [] => []
  | d :: rest => if is_rule d then i :: rulers (S i) rest else rulers (S i) rest
  end.

(** [action(elem, doc)]. The test on [doc.format] guards a [pass]. The
    function rebinds [elem.classes[0]] and empties [align]/[width] from
    [elem.attributes] before it builds the replacement; [elem] itself is
    dropped by the traversal once a replacement is returned. *)
Definition action (elem : Elem) (doc : Doc) : outcome ret :=
  let _ := if negb (String.eqb (format doc) "beamer") then tt else tt in
  match elem with
  | Div content _ classes attributes =>
      match classes with
      | [] => Raise IndexError
      | c0 :: _ =>
          if negb (String.eqb c0 DIVNAME) then Ok RNone
          else
            match rulers 0 content with
            | [] => Ok RNone
            | ruler_pos :: _ =>
                let num_elements := length content in
                let '(cols_attributes, attributes) := process_attributes attributes in
                let beforeContent := take ruler_pos content in
                let beforeDiv :=
                  Div beforeContent "" ["column"]
                      (dict_merge attributes (left cols_attributes)) in
                if (ruler_pos <? num_elements)%nat then
                  let afterContent := drop (S ruler_pos) content in
                  let afterDiv :=
                    Div afterContent "" ["column"]
                        (dict_merge attributes (right cols_attributes)) in
                  Ok (RElem (Div [beforeDiv; afterDiv] "" ["columns"] ∅))
                else Raise TypeError
            end
      end
  | _ => Ok RNone
  end.

End TwoCol.

(** ** divs-to-latex.py *)

Module DivsToLatex.

(** The [doc] object: the target format, the table stored under
    ['div-env'] in the metadata, and the temporary attribute [doc.div]
    ([None] when [not hasattr(doc, "div")]). *)
Record Doc : Type := mkDoc {
  format : string;
  div_env : option (gmap string string);
  div : option (string * string * string)
}.

Definition set_div (doc : Doc) (d : option (string * string * string)) : Doc :=
  {| format := format doc; div_env := div_env doc; div := d |}.

(** [latex(txt)] *)
Definition latex (txt : string) : Elem := RawInline txt "tex".

(** [add_before_first_paragraph(elem, doc)]: the element it returns
    ([None] when it returns nothing) and [doc] after the call. *)
Definition add_before_first_paragraph (elem : Elem) (doc : Doc)
  : option Elem * Doc :=
  match div doc with
  | None => (None, doc)
  | Some (env, title, label) =>
      match elem with
      | Para content =>
          let before := latex ("\begin{" ++ env ++ "}" ++ title ++ label) in
          (Some (Para (before :: content)), set_div doc None)
      | _ => (None, doc)
      end
  end.

Section Walk.
Variable action : Elem -> Doc -> option Elem * Doc.

(** [elem.walk(action, doc)]: the children first, left to right, then
    the element itself; an element for which [action] returns [None]
    is kept. *)
Fixpoint walk (elem : Elem) (doc : Doc) : Elem * Doc :=
  let walk_list := fix go (l : list Elem) (doc : Doc) : list Elem * Doc :=
    match l with
    | [] => ([], doc)
    | x :: r =>
        let '(x', doc) := walk x doc in
        let '(r', doc) := go r doc in
        (x' :: r', doc)
    end in
  let '(self, doc) :=
    match elem with
    | Para c => let '(c', doc) := walk_list c doc in (Para c', doc)
    | Plain c => let '(c', doc) := walk_list c doc in (Plain c', doc)
    | BlockQuote c => let '(c', doc) := walk_list c doc in (BlockQuote c', doc)
    | Emph c => let '(c', doc) := walk_list c doc in (Emph c', doc)
    | Note c => let '(c', doc) := walk_list c doc in (Note c', doc)
    | Div c i cl a => let '(c', doc) := walk_list c doc in (Div c' i cl a, doc)
    | Span c i cl a => let '(c', doc) := walk_list c doc in (Span c' i cl a, doc)
    | Link c u i cl a => let '(c', doc) := walk_list c doc in (Link c' u i cl a, doc)
    | _ => (elem, doc)
    end in
  let '(altered, doc) := action self doc in
  (default self altered, doc).

(** The loop of [walk] over a list of children. *)
Fixpoint walk_list (l : list Elem) (doc : Doc) : list Elem * Doc :=
  match l with
  | [] => ([], doc)
  | x :: r =>
      let '(x', doc) := walk x doc in
      let '(r', doc) := walk_list r doc in
      (x' :: r', doc)
  end.
End Walk.

(** [not META] *)
Definition falsy (meta : option (gmap string string)) : bool :=
  match meta with
  | None => true
  | Some m => bool_decide (m = ∅)
  end.

(** [action(elem, doc)]. The function returns [None] on every path and
    works by mutating [elem] and [doc]: the result is the pair of both
    after the call. The test on [doc.format] guards a [pass]. [META] is
    assigned in the body, hence local: reading it raises
    [UnboundLocalError], a [NameError], and the handler fetches the
    metadata on every call. *)
Definition action (elem : Elem) (doc : Doc) : Elem * Doc :=
  let _ := if negb (bool_decide (format doc ∈ ["beamer"; "latex"])) then tt else tt in
  match elem with
  | Div content identifier classes attributes =>
      let META := div_env doc in
      if falsy META then (elem, doc)
      else
        match classes with
        | [] => (elem, doc)
        | div_ :: _ =>
            match default ∅ META !! div_ with
            | None => (elem, doc)
            | Some env =>
                let label :=
                  if negb (String.eqb identifier "")
                  then "\label{" ++ identifier ++ "}" else "" in
                let title :=
                  match attributes !! "title" with
                  | Some t => "[" ++ t ++ "]"
                  | None => ""
                  end in
                let doc := set_div doc (Some (env, title, label)) in
                let '(elem, doc) := walk add_before_first_paragraph elem doc in
                let after := Plain [RawInline ("\end{" ++ env ++ "}") "tex"] in
                match elem with
                | Div content identifier classes attributes =>
                    (Div (content ++ [after]) identifier classes attributes, doc)
                | _ => (elem, doc)
                end
            end
        end
  | _ => (elem, doc)
  end.

End DivsToLatex.

(** * Vocabulary of the statements *)

(** ** Columns *)

Definition no_rule (l : list Elem) : Prop :=
  Forall (fun e => TwoCol.is_rule e = false) l.

(** The attributes the rule gives to the left and to the right column. *)
Definition left_attributes (a : gmap string string) : gmap string string :=
  dict_merge (snd (TwoCol.process_attributes a))
             (TwoCol.left (fst (TwoCol.process_attributes a))).

Definition right_attributes (a : gmap string string) : gmap string string :=
  dict_merge (snd (TwoCol.process_attributes a))
             (TwoCol.right (fst (TwoCol.process_attributes a))).

(** The text before the first comma, or the whole value. *)
Definition before_comma (v : string) : string :=
  match PyStr.split_once "," v with
  | Some (a, _) => a
  | None => v
  end.

(** The text between the first and the second comma, or after the first
    comma when it is the only one, or the whole value. *)
Definition second_value (v : string) : string :=
  match PyStr.split_once "," v with
  | Some (_, b) => before_comma b
  | None => v
  end.

(** The spec's reading: the value is cut at its first comma only, the
    right column taking all that follows. *)
Definition after_first_comma (v : string) : string :=
  match PyStr.split_once "," v with
  | Some (_, b) => b
  | None => v
  end.

(** ** Links *)

(** The table a call works with: the merge on the first call, the stored
    global afterwards. *)
Definition links_in_force (doc : SuperLinks.Doc) (g : SuperLinks.Globals)
  : gmap string SuperLinks.url_data :=
  match SuperLinks.META g with
  | None => dict_merge (SuperLinks.LINKS g) (SuperLinks.get_metadata doc)
  | Some _ => SuperLinks.LINKS g
  end.

(** The key the rule looks up: the [type] attribute, else the first
    class, else the empty string. *)
Definition link_type (classes : list string) (attributes : gmap string string)
  : string :=
  match attributes !! "type" with
  | Some t => t
  | None => match classes with
            | c :: _ => c
            | [] => ""
            end
  end.

(** The text shown before it is wrapped: a non-empty [title], else the
    flattened text. *)
Definition shown_text (attributes : gmap string string) (base : string) : string :=
  match attributes !! "title" with
  | Some (String c t) => String c t
  | _ => base
  end.

(** The resolver as the spec words it: [attrs[name]] if present and
    non-empty, else [fallback]. *)
Definition spec_resolve (attrs : gmap string string) (name fallback : string)
  : string :=
  match attrs !! name with
  | Some (String c t) => String c t
  | _ => fallback
  end.

(** [target], one slash unless [target] ends in one, then [tail]. *)
Definition join_url (target tail : string) : string :=
  target ++ (if PyStr.endswith_slash target then "" else "/") ++ tail.

Definition url_of (o : outcome (string * string)) : outcome string :=
  '(_, url) ← o; Ok url.

(** ** Trees and environments *)

(** The children of a node, and the node with other children. *)
Definition children (e : Elem) : list Elem :=
  match e with
  | Para c | Plain c | BlockQuote c | Emph c | Note c => c
  | Div c _ _ _ | Span c _ _ _ | Link c _ _ _ _ => c
  | _ => []
  end.

Definition with_children (e : Elem) (c : list Elem) : Elem :=
  match e with
  | Para _ => Para c
  | Plain _ => Plain c
  | BlockQuote _ => BlockQuote c
  | Emph _ => Emph c
  | Note _ => Note c
  | Div _ i cl a => Div c i cl a
  | Span _ i cl a => Span c i cl a
  | Link _ u i cl a => Link c u i cl a
  | _ => e
  end.

Definition is_para (e : Elem) : bool :=
  match e with
  | Para _ => true
  | _ => false
  end.

(** Induction on the tree: a property that passes from the children of a
    node to the node holds of every node. *)
Section Elem_children_ind.
Variable P : Elem -> Prop.
Hypothesis step : forall e, Forall P (children e) -> P e.

Fixpoint Elem_children_ind (e : Elem) : P e :=
  let all := fix go (l : list Elem) : Forall P l :=
    match l with
    | [] => @List.Forall_nil _ P
    | x :: r => @List.Forall_cons _ P x r (Elem_children_ind x) (go r)
    end in
  match e as e0 return (Forall P (children e0) -> P e0) -> P e0 with
  | Para c => fun k => k (all c)
  | Plain c => fun k => k (all c)
  | BlockQuote c => fun k => k (all c)
  | Emph c => fun k => k (all c)
  | Note c => fun k => k (all c)
  | Div c _ _ _ => fun k => k (all c)
  | Span c _ _ _ => fun k => k (all c)
  | Link c _ _ _ _ => fun k => k (all c)
  | _ => fun k => k (@List.Forall_nil _ P)
  end (step e).
End Elem_children_ind.

(** Is there a [Para] in the subtree of [e], [e] included? *)
Fixpoint has_para (e : Elem) : bool :=
  match e with
  | Para _ => true
  | Plain c | BlockQuote c | Emph c | Note c => existsb has_para c
  | Div c _ _ _ | Span c _ _ _ | Link c _ _ _ _ => existsb has_para c
  | _ => false
  end.

(** The spec's reading of the rule, as one recursive helper: [m] is put in
    front of the content of the first [Para] met when the children are
    visited before their parent, left to right; [None] when the subtree
    has no [Para]. *)
Section Inject.
Variable m : Elem.

Fixpoint inject (e : Elem) : option Elem :=
  let inject_list := fix go (l : list Elem) : option (list Elem) :=
    match l with
    | [] => None
    | x :: r =>
        match inject x with
        | Some x' => Some (x' :: r)
        | None => cons x <$> go r
        end
    end in
  match e with
  | Para c => Some (Para (default (m :: c) (inject_list c)))
  | Plain c => Plain <$> inject_list c
  | BlockQuote c => BlockQuote <$> inject_list c
  | Emph c => Emph <$> inject_list c
  | Note c => Note <$> inject_list c
  | Div c i cl a => (fun c' => Div c' i cl a) <$> inject_list c
  | Span c i cl a => (fun c' => Span c' i cl a) <$> inject_list c
  | Link c u i cl a => (fun c' => Link c' u i cl a) <$> inject_list c
  | _ => None
  end.

Fixpoint inject_list (l : list Elem) : option (list Elem) :=
  match l with
  | [] => None
  | x :: r =>
      match inject x with
      | Some x' => Some (x' :: r)
      | None => cons x <$> inject_list r
      end
  end.
End Inject.

(** The opening marker of a matched [Div]. *)
Definition opening (env identifier : string) (attributes : gmap string string)
  : string :=
  "\begin{" ++ env ++ "}"
  ++ match attributes !! "title" with
     | Some t => "[" ++ t ++ "]"
     | None => ""
     end
  ++ (if negb (String.eqb identifier "") then "\label{" ++ identifier ++ "}" else "").

Definition closing (env : string) : Elem :=
  Plain [RawInline ("\end{" ++ env ++ "}") "tex"].

(** ** Runs and texts *)

(** Does the character [c] stay out of [s]? *)
Fixpoint no_char (c : ascii) (s : string) : bool :=
  match s with
  | EmptyString => true
  | String x s' => negb (Ascii.eqb x c) && no_char c s'
  end.

(** Do all the characters of [s] pass the test [p]? *)
Fixpoint all_chars (p : ascii -> bool) (s : string) : bool :=
  match s with
  | EmptyString => true
  | String x s' => p x && all_chars p s'
  end.

(** The characters [quote_plus] can put out. *)
Definition url_char (c : ascii) : bool :=
  PyStr.always_safe c || Ascii.eqb c "+" || Ascii.eqb c "%".

Definition is_span (e : Elem) : bool :=
  match e with
  | Span _ _ _ _ => true
  | _ => false
  end.

(** The globals of the link filter once the block under
    ['META' not in globals()] has been passed. *)
Definition settled (doc : SuperLinks.Doc) (g : SuperLinks.Globals)
  : SuperLinks.Globals :=
  match SuperLinks.META g with
  | None =>
      {| SuperLinks.LINKS := dict_merge (SuperLinks.LINKS g) (SuperLinks.get_metadata doc);
         SuperLinks.META := Some (SuperLinks.get_metadata doc) |}
  | Some _ => g
  end.

(** The two shapes an admonition takes, by target format. *)
Definition admonition (format classname newtext : string) : ret :=
  if bool_decide (format ∈ ["latex"; "beamer"]) then
    RList [ RawBlock ("\begin{" ++ classname ++ "}") "tex";
            Para [Str newtext];
            RawBlock ("\end{" ++ classname ++ "}") "tex" ]
  else RElem (Div [Para [Str newtext]] "" [classname] ∅).

(** The environment a node is wrapped in: the entry of the first class of
    a [Div] in the ['div-env'] table, if all three are there. *)
Definition env_of (e : Elem) (doc : DivsToLatex.Doc) : option string :=
  match e with
  | Div _ _ (c0 :: _) _ =>
      match DivsToLatex.div_env doc with
      | Some table => table !! c0
      | None => None
      end
  | _ => None
  end.

(** The value that [action] stores in [doc.div] for a matched [Div]. *)
Definition pending (env identifier : string) (attributes : gmap string string)
  : string * string * string :=
  (env,
   match attributes !! "title" with
   | Some t => "[" ++ t ++ "]"
   | None => ""
   end,
   if negb (String.eqb identifier "") then "\label{" ++ identifier ++ "}" else "").

(** ** Encoded texts *)






(** * Properties *)

(** ** Strings *)

Lemma startswith_drop p s :
  PyStr.startswith p s = true -> s = p ++ PyStr.drop (String.length p) s.
Proof.
  revert s. induction p as [|a p IH]; intros [|b s]; simpl; try done.
  destruct (Ascii.eqb_spec a b) as [->|]; [|done].
  intros H. rewrite (IH s H) at 1. reflexivity.
Qed.

Lemma startswith_app p s : PyStr.startswith p (p ++ s) = true.
Proof.
  induction p as [|a p IH]; simpl; [done|].
  by rewrite Ascii.eqb_refl.
Qed.

Lemma string_app_assoc (a b c : string) : (a ++ b) ++ c = a ++ (b ++ c).
Proof.
  induction a as [|x a IH]; [reflexivity|].
  change (String x ((a ++ b) ++ c) = String x (a ++ (b ++ c))).
  by rewrite IH.
Qed.

Lemma split_once_Some sep s a b :
  PyStr.split_once sep s = Some (a, b) -> s = a ++ sep ++ b.
Proof.
  revert a b. induction s as [|c s IH]; intros a b; simpl.
  - destruct (PyStr.startswith sep "") eqn:E; [|done].
    intros [= <- <-]. by apply startswith_drop in E.
  - destruct (PyStr.startswith sep (String c s)) eqn:E.
    + intros [= <- <-]. by apply startswith_drop in E.
    + destruct (PyStr.split_once sep s) as [[a' b']|] eqn:E'; [|done].
      intros [= <- <-]. rewrite (IH _ _ eq_refl) at 1. reflexivity.
Qed.

Lemma split_nonempty sep n s : PyStr.split sep n s <> [].
Proof.
  destruct n; simpl; [done|].
  by destruct (PyStr.split_once sep s) as [[??]|].
Qed.

(** The first piece of [text.split(sep, 1)] is followed by [sep] in [text],
    unless [sep] does not occur and the piece is the whole of [text]. *)
Lemma first_word_cases sep text :
  PyStr.startswith (nth 0 (PyStr.split sep 1 text) "" ++ sep) text = true
  \/ nth 0 (PyStr.split sep 1 text) "" = text.
Proof.
  simpl. destruct (PyStr.split_once sep text) as [[a b]|] eqn:E; simpl.
  - left. apply split_once_Some in E as ->.
    rewrite <- string_app_assoc. apply startswith_app.
  - by right.
Qed.

Lemma length_zero_iff (s : string) : (String.length s =? 0)%nat = true <-> s = "".
Proof. destruct s; simpl; split; done. Qed.

(** ** Merging the configuration tables *)

Lemma dict_has_true {V} k (d : gmap string V) :
  dict_has k d = true <-> is_Some (d !! k).
Proof. unfold dict_has. by rewrite bool_decide_eq_true. Qed.

(** C9: [merge(defaults, override)] has as keys the keys of both tables;
    on a key of [override] the result is the entry of [override], whole,
    and a key that [override] does not have keeps the entry of
    [defaults]. *)
Theorem merge_override_wins (V : Type) (defaults override : gmap string V) :
  dom (dict_merge defaults override) = dom defaults ∪ dom override
  /\ forall K : string,
      dict_merge defaults override !! K =
        match override !! K with
        | Some entry => Some entry
        | None => defaults !! K
        end.
Proof.
  unfold dict_merge. split.
  - rewrite dom_union_L. apply (comm_L (∪)).
  - intros K. rewrite lookup_union.
    destruct (override !! K), (defaults !! K); done.
Qed.

(** An overriding record replaces the built-in record as a whole: the
    [encode] flag of the built-in [wiki] entry is not inherited. *)
Example merge_replaces_whole_entry :
  dict_merge SuperLinks.LINKS0
    {[ "wiki" := SuperLinks.UDict
                   (SuperLinks.mkLinkDict (Some "https://w/") false None None) ]}
    !! "wiki"
  = Some (SuperLinks.UDict (SuperLinks.mkLinkDict (Some "https://w/") false None None)).
Proof. vm_compute. reflexivity. Qed.

(** ** The table of the first call and the later calls *)

(** The first paragraph of a run always gets through, and leaves [META]
    defined. *)
Lemma admonition_first_call stringify c doc :
  exists r,
    Admonitions.action stringify (Para c) doc Admonitions.fresh
    = Ok (r, {| Admonitions.META := Some (Admonitions.get_metadata doc) |}).
Proof.
  unfold Admonitions.action. simpl.
  destruct (String.length (stringify (Para c)) =? 0)%nat; [by eexists|].
  destruct (dict_merge _ _ !! _); [|by eexists].
  destruct (bool_decide _); by eexists.
Qed.

(** Once [META] is a global, the local [admonitions] stays unbound: a
    paragraph with some text raises. *)
Lemma admonition_later_call stringify c doc g :
  is_Some (Admonitions.META g) ->
  stringify (Para c) <> "" ->
  Admonitions.action stringify (Para c) doc g
  = Raise (UnboundLocalError "admonitions").
Proof.
  intros [m Hm] Htext. unfold Admonitions.action. rewrite Hm.
  destruct (String.length (stringify (Para c)) =? 0)%nat eqn:E; [|done].
  by apply length_zero_iff in E.
Qed.

(** The link filter stores the merged table in the global [LINKS]: a later
    call leaves the globals as they are, whatever the metadata say then. *)
Lemma links_first_call stringify c i cl a doc r g :
  SuperLinks.action stringify (Span c i cl a) doc SuperLinks.fresh = Ok (r, g) ->
  g = {| SuperLinks.LINKS := dict_merge SuperLinks.LINKS0 (SuperLinks.get_metadata doc);
         SuperLinks.META := Some (SuperLinks.get_metadata doc) |}.
Proof.
  unfold SuperLinks.action. simpl.
  destruct (negb _); [by intros [= _ <-]|].
  destruct (negb _); [by intros [= _ <-]|].
  destruct (SuperLinks.get_link_text _ _ _ _) as [[??]|]; simpl; [|done].
  by intros [= _ <-].
Qed.

Lemma links_later_call stringify e doc g r g' :
  is_Some (SuperLinks.META g) ->
  SuperLinks.action stringify e doc g = Ok (r, g') -> g' = g.
Proof.
  intros [m Hm]. unfold SuperLinks.action.
  destruct e; try by intros [= _ <-].
  rewrite Hm.
  destruct (negb _); [by intros [= _ <-]|].
  destruct (negb _); [by intros [= _ <-]|].
  destruct (SuperLinks.get_link_text _ _ _ _) as [[??]|]; simpl; [|done].
  by intros [= _ <-].
Qed.

(** C1: in the admonition filter the second paragraph with some text does
    not reuse the table of the first: the run ends in
    [UnboundLocalError], whatever the two paragraphs hold. *)
Theorem admonition_second_paragraph_raises stringify doc c1 c2 :
  stringify (Para c2) <> "" ->
  Admonitions.visit stringify [Para c1; Para c2] doc Admonitions.fresh
  = Raise (UnboundLocalError "admonitions").
Proof.
  intros Htext. unfold Admonitions.visit.
  destruct (admonition_first_call stringify c1 doc) as [r ->].
  unfold mbind, outcome_bind.
  rewrite admonition_later_call; [done| by eexists |done].
Qed.

Lemma admonition_second_paragraph_raises_witness :
  Admonitions.visit flatten
    [Para [Str "NOTE:"; Space; Str "first"]; Para [Str "TIP:"; Space; Str "second"]]
    (Admonitions.mkDoc "html" None) Admonitions.fresh
  = Raise (UnboundLocalError "admonitions").
Proof.
  apply (admonition_second_paragraph_raises flatten). simpl. discriminate.
Defined.

(** ** The admonition rule on the first paragraph of a run *)

(** On the first paragraph, a text that neither starts with a configured
    word followed by [": "] nor is a configured word itself is left
    alone. *)
Lemma admonition_first_no_trigger stringify c doc :
  (forall W, is_Some (dict_merge Admonitions.ADMONITIONS (Admonitions.get_metadata doc) !! W) ->
             PyStr.startswith (W ++ ": ") (stringify (Para c)) = false) ->
  dict_merge Admonitions.ADMONITIONS (Admonitions.get_metadata doc) !! stringify (Para c) = None ->
  Admonitions.action stringify (Para c) doc Admonitions.fresh
  = Ok (RNone, {| Admonitions.META := Some (Admonitions.get_metadata doc) |}).
Proof.
  intros Hstart Hwhole. unfold Admonitions.action. simpl Admonitions.META. cbv iota beta.
  destruct (String.length (stringify (Para c)) =? 0)%nat; [done|].
  destruct (first_word_cases ": " (stringify (Para c))) as [Hw|Hw].
  - destruct (dict_merge _ _ !! nth 0 _ "") eqn:E; [|done].
    rewrite Hstart in Hw; [done|]. by rewrite E.
  - rewrite Hw, Hwhole. done.
Qed.

(** On the first paragraph, the text ["NOTE: hello"] gives the three-node
    sequence on [latex] and [beamer], and the [Div] elsewhere. *)
Lemma admonition_note_hello stringify c doc :
  stringify (Para c) = "NOTE: hello" ->
  dict_merge Admonitions.ADMONITIONS (Admonitions.get_metadata doc) !! "NOTE" = Some "note" ->
  Admonitions.action stringify (Para c) doc Admonitions.fresh
  = Ok (if bool_decide (Admonitions.format doc ∈ ["latex"; "beamer"])
        then RList [ RawBlock "\begin{note}" "tex"; Para [Str "hello"];
                     RawBlock "\end{note}" "tex" ]
        else RElem (Div [Para [Str "hello"]] "" ["note"] ∅),
        {| Admonitions.META := Some (Admonitions.get_metadata doc) |}).
Proof.
  intros Htext Hnote. unfold Admonitions.action. simpl Admonitions.META. cbv iota beta.
  rewrite Htext.
  change (nth 0 (PyStr.split ": " 1 "NOTE: hello") "") with "NOTE".
  rewrite Hnote.
  change (PyStr.removeprefix ("NOTE" ++ ": ") "NOTE: hello") with "hello".
  by destruct (bool_decide _).
Qed.

(** C3: a paragraph without any trigger word is not always handed back
    unchanged: as the second paragraph of a run, after ["NOTE: hello"], the
    paragraph ["plain words"] makes the rule raise [UnboundLocalError]. *)
Theorem admonition_plain_paragraph_not_kept :
  Admonitions.visit flatten
    [Para [Str "NOTE:"; Space; Str "hello"]; Para [Str "plain"; Space; Str "words"]]
    (Admonitions.mkDoc "html" None) Admonitions.fresh
  = Raise (UnboundLocalError "admonitions").
Proof. vm_compute. reflexivity. Qed.

(** [text.split(": ", 1)[0]] is the whole text when [": "] does not occur:
    a first paragraph whose flattened text is a configured word and
    nothing more is rewritten as well. *)
Example admonition_bare_word_rewritten :
  Admonitions.action flatten (Para [Str "NOTE"])
    (Admonitions.mkDoc "html" None) Admonitions.fresh
  = Ok (RElem (Div [Para [Str "NOTE"]] "" ["note"] ∅),
        {| Admonitions.META := Some ∅ |}).
Proof. vm_compute. reflexivity. Qed.

(** ** A node that does not match *)

(** The environment rule and the link rule test the length of the class
    list before they read its first entry. *)
Lemma divs_empty_classes_kept c i a doc :
  DivsToLatex.action (Div c i [] a) doc = (Div c i [] a, doc).
Proof. unfold DivsToLatex.action. by destruct (DivsToLatex.falsy _). Qed.

Lemma links_no_type_no_class_kept stringify c a doc g :
  a !! "type" = None ->
  SuperLinks.LINKS g !! "" = None ->
  is_Some (SuperLinks.META g) ->
  SuperLinks.action stringify (Span c SuperLinks.IDNAME [] a) doc g = Ok (RNone, g).
Proof.
  intros Ha Hl [m Hm]. unfold SuperLinks.action. rewrite Hm, Ha. simpl.
  unfold dict_has. rewrite Hl. rewrite bool_decide_eq_false_2; [done|].
  by intros [??].
Qed.

(** C8: the column rule reads [elem.classes[0]] without that test: a [Div]
    with no class raises [IndexError] instead of being handed back. *)
Theorem twocol_empty_classes_raises c i a doc :
  TwoCol.action (Div c i [] a) doc = Raise IndexError.
Proof. reflexivity. Qed.

(** ** The column rule *)

Lemma rulers_none i content : no_rule content -> TwoCol.rulers i content = [].
Proof.
  intros H. revert i. induction H as [|e l He _ IH]; intros i; simpl; [done|].
  by rewrite He.
Qed.

Lemma rulers_first i pre post :
  no_rule pre ->
  TwoCol.rulers i (pre ++ HorizontalRule :: post)
  = (i + length pre)%nat :: TwoCol.rulers (S (i + length pre)) post.
Proof.
  intros H. revert i. induction H as [|e l He _ IH]; intros i; simpl.
  - by rewrite Nat.add_0_r.
  - rewrite He, IH. by rewrite Nat.add_succ_r.
Qed.

Lemma twocol_action_split i cl a doc pre post :
  no_rule pre ->
  TwoCol.action (Div (pre ++ HorizontalRule :: post) i (TwoCol.DIVNAME :: cl) a) doc
  = Ok (RElem (Div [ Div pre "" ["column"] (left_attributes a);
                     Div post "" ["column"] (right_attributes a) ]
                   "" ["columns"] ∅)).
Proof.
  intros Hpre. unfold TwoCol.action, left_attributes, right_attributes.
  change (negb (TwoCol.DIVNAME =? TwoCol.DIVNAME)%string) with false. cbv iota.
  rewrite (rulers_first 0 pre post Hpre). simpl Nat.add.
  destruct (TwoCol.process_attributes a) as [cols rest]. simpl fst. simpl snd.
  rewrite take_app_length.
  replace (S (length pre)) with (length (pre ++ [HorizontalRule]))
    by (rewrite length_app; simpl; lia).
  rewrite (cons_middle HorizontalRule pre post), app_assoc, drop_app_length.
  replace (length pre <? length ((pre ++ [HorizontalRule]) ++ post))%nat with true; [done|].
  symmetry. apply Nat.ltb_lt. rewrite !length_app. simpl. lia.
Qed.

Lemma twocol_action_no_rule i cl a doc content :
  no_rule content ->
  TwoCol.action (Div content i (TwoCol.DIVNAME :: cl) a) doc = Ok RNone.
Proof.
  intros H. unfold TwoCol.action.
  change (negb (TwoCol.DIVNAME =? TwoCol.DIVNAME)%string) with false. cbv iota.
  by rewrite rulers_none.
Qed.

(** C5: a [Div] of first class [twocol] whose first [HorizontalRule] stands
    between [pre] and [post] becomes a [columns] [Div] of exactly two
    [column] [Div]s, holding [pre] and [post] in their order, the rule
    itself dropped; when the rule is the last child the right column is
    there, empty; without any rule the rule hands the node back. *)
Theorem column_split_children i cl a doc pre post content :
  no_rule pre ->
  no_rule content ->
  TwoCol.action (Div (pre ++ HorizontalRule :: post) i (TwoCol.DIVNAME :: cl) a) doc
  = Ok (RElem (Div [ Div pre "" ["column"] (left_attributes a);
                     Div post "" ["column"] (right_attributes a) ]
                   "" ["columns"] ∅))
  /\ TwoCol.action (Div (pre ++ [HorizontalRule]) i (TwoCol.DIVNAME :: cl) a) doc
     = Ok (RElem (Div [ Div pre "" ["column"] (left_attributes a);
                        Div [] "" ["column"] (right_attributes a) ]
                      "" ["columns"] ∅))
  /\ TwoCol.action (Div content i (TwoCol.DIVNAME :: cl) a) doc = Ok RNone.
Proof.
  intros Hpre Hcontent. split; [|split].
  - by apply twocol_action_split.
  - by apply twocol_action_split.
  - by apply twocol_action_no_rule.
Qed.

Lemma column_split_children_witness :
  let A := Para [Str "A"] in
  let B := Para [Str "B"] in
  let C := Para [Str "C"] in
  TwoCol.action (Div [A; B; HorizontalRule; C] "" ["twocol"] ∅) (TwoCol.mkDoc "beamer")
  = Ok (RElem (Div [ Div [A; B] "" ["column"] (left_attributes ∅);
                     Div [C] "" ["column"] (right_attributes ∅) ]
                   "" ["columns"] ∅))
  /\ TwoCol.action (Div [A; B; HorizontalRule] "" ["twocol"] ∅) (TwoCol.mkDoc "beamer")
     = Ok (RElem (Div [ Div [A; B] "" ["column"] (left_attributes ∅);
                        Div [] "" ["column"] (right_attributes ∅) ]
                      "" ["columns"] ∅))
  /\ TwoCol.action (Div [A; B; C] "" ["twocol"] ∅) (TwoCol.mkDoc "beamer") = Ok RNone.
Proof.
  intros A B C.
  apply (column_split_children "" [] ∅ (TwoCol.mkDoc "beamer") [A; B] [C] [A; B; C]).
  - repeat constructor.
  - repeat constructor.
Defined.

Lemma split_attributes_pieces v k sh :
  TwoCol.split_attributes v k sh
  = {| TwoCol.left := <[k := before_comma v]> (TwoCol.left sh);
       TwoCol.right := <[k := second_value v]> (TwoCol.right sh) |}.
Proof.
  unfold TwoCol.split_attributes, before_comma, second_value. simpl PyStr.split.
  destruct (PyStr.split_once "," v) as [[a b]|]; [|done].
  unfold before_comma.
  by destruct (PyStr.split_once "," b) as [[a' b']|].
Qed.

Lemma process_attributes_eq a :
  TwoCol.process_attributes a =
    match a !! "align", a !! "width" with
    | Some x, Some y =>
        ({| TwoCol.left := {[ "width" := before_comma y; "align" := before_comma x ]};
            TwoCol.right := {[ "width" := second_value y; "align" := second_value x ]} |},
         delete "width" (delete "align" a))
    | Some x, None =>
        ({| TwoCol.left := {[ "align" := before_comma x ]};
            TwoCol.right := {[ "align" := second_value x ]} |}, delete "align" a)
    | None, Some y =>
        ({| TwoCol.left := {[ "width" := before_comma y ]};
            TwoCol.right := {[ "width" := second_value y ]} |}, delete "width" a)
    | None, None => ({| TwoCol.left := ∅; TwoCol.right := ∅ |}, a)
    end.
Proof.
  unfold TwoCol.process_attributes. simpl fold_left.
  destruct (a !! "align") as [x|] eqn:Ea.
  - rewrite lookup_delete_ne by done.
    destruct (a !! "width") as [y|]; by rewrite ?split_attributes_pieces.
  - destruct (a !! "width") as [y|]; by rewrite ?split_attributes_pieces.
Qed.

Ltac solve_column_lookup a :=
  let Hk := fresh "Hk" in
  unfold dict_merge; rewrite process_attributes_eq;
  destruct (a !! "align") eqn:?, (a !! "width") eqn:?; simpl;
  rewrite lookup_union;
  (case_bool_decide as Hk;
   [ destruct Hk as [-> | ->] | apply Decidable.not_or in Hk as [??] ]);
  simplify_map_eq; done.

Lemma left_attributes_lookup a k :
  left_attributes a !! k
  = if bool_decide (k = "align" \/ k = "width") then before_comma <$> a !! k else a !! k.
Proof. unfold left_attributes. solve_column_lookup a. Qed.

Lemma right_attributes_lookup a k :
  right_attributes a !! k
  = if bool_decide (k = "align" \/ k = "width") then second_value <$> a !! k else a !! k.
Proof. unfold right_attributes. solve_column_lookup a. Qed.

(** With no comma both values are the whole text; with one comma they are
    the two sides of it, as cutting at the first comma gives them. *)
Lemma second_value_one_comma v :
  (forall a b, PyStr.split_once "," v = Some (a, b) -> PyStr.split_once "," b = None) ->
  second_value v = after_first_comma v.
Proof.
  unfold second_value, after_first_comma, before_comma. intros H.
  destruct (PyStr.split_once "," v) as [[a b]|]; [|done].
  by rewrite (H a b eq_refl).
Qed.

Example align_pair :
  before_comma "top,bottom" = "top" /\ second_value "top,bottom" = "bottom"
  /\ before_comma "center" = "center" /\ second_value "center" = "center".
Proof. repeat split. Qed.

(** C7, as the code has it: of [align] and of [width] the left column gets
    the text before the first comma and the right column the second
    value, which ends at the second comma when there is one (with no
    comma both get the whole value); every other attribute of the [Div]
    goes unchanged to both columns. *)
Theorem column_attributes_split i cl a doc pre post :
  no_rule pre ->
  exists la ra,
    TwoCol.action (Div (pre ++ HorizontalRule :: post) i (TwoCol.DIVNAME :: cl) a) doc
    = Ok (RElem (Div [ Div pre "" ["column"] la; Div post "" ["column"] ra ]
                     "" ["columns"] ∅))
    /\ forall k : string,
        la !! k = (if bool_decide (k = "align" \/ k = "width")
                   then before_comma <$> a !! k else a !! k)
        /\ ra !! k = (if bool_decide (k = "align" \/ k = "width")
                      then second_value <$> a !! k else a !! k).
Proof.
  intros Hpre. exists (left_attributes a), (right_attributes a). split.
  - by apply twocol_action_split.
  - intros k. split; [apply left_attributes_lookup | apply right_attributes_lookup].
Qed.

Lemma column_attributes_split_witness :
  exists la ra,
    TwoCol.action
      (Div ([Para [Str "L"]] ++ HorizontalRule :: [Para [Str "R"]]) "" [TwoCol.DIVNAME]
           {[ "align" := "top,bottom"; "width" := "40%"; "lang" := "en" ]})
      (TwoCol.mkDoc "beamer")
    = Ok (RElem (Div [ Div [Para [Str "L"]] "" ["column"] la;
                       Div [Para [Str "R"]] "" ["column"] ra ] "" ["columns"] ∅))
    /\ forall k : string,
        la !! k = (if bool_decide (k = "align" \/ k = "width")
                   then before_comma <$>
                          ({[ "align" := "top,bottom"; "width" := "40%"; "lang" := "en" ]}
                             : gmap string string) !! k
                   else ({[ "align" := "top,bottom"; "width" := "40%"; "lang" := "en" ]}
                           : gmap string string) !! k)
        /\ ra !! k = (if bool_decide (k = "align" \/ k = "width")
                      then second_value <$>
                             ({[ "align" := "top,bottom"; "width" := "40%"; "lang" := "en" ]}
                                : gmap string string) !! k
                      else ({[ "align" := "top,bottom"; "width" := "40%"; "lang" := "en" ]}
                              : gmap string string) !! k).
Proof.
  apply (column_attributes_split "" [] _ (TwoCol.mkDoc "beamer")
           [Para [Str "L"]] [Para [Str "R"]]).
  repeat constructor.
Defined.

(** A value with two commas: the right column gets ["center"], not the
    ["center,bottom"] that follows the first comma. *)
Lemma right_column_not_after_first_comma :
  exists lcol ra,
    TwoCol.action
      (Div [Para [Str "L"]; HorizontalRule; Para [Str "R"]] "" ["twocol"]
           {[ "align" := "top,center,bottom" ]})
      (TwoCol.mkDoc "beamer")
    = Ok (RElem (Div [ lcol; Div [Para [Str "R"]] "" ["column"] ra ] "" ["columns"] ∅))
    /\ ra !! "align" = Some "center"
    /\ ra !! "align" <> Some (after_first_comma "top,center,bottom").
Proof.
  eexists _, _. split; [vm_compute; reflexivity|].
  split; [vm_compute; reflexivity|].
  vm_compute. discriminate.
Qed.

(** ** The link rule *)

Lemma link_action_matched stringify c cl a doc g :
  is_Some (links_in_force doc g !! link_type cl a) ->
  SuperLinks.action stringify (Span c SuperLinks.IDNAME cl a) doc g
  = '(text, url) ← SuperLinks.get_link_text stringify (links_in_force doc g)
                      (link_type cl a) (Span c SuperLinks.IDNAME cl a) a;
    Ok (RElem (Link [Str text] url "" cl a),
        {| SuperLinks.LINKS := links_in_force doc g;
           SuperLinks.META := Some (default (SuperLinks.get_metadata doc) (SuperLinks.META g)) |}).
Proof.
  intros Hin. unfold SuperLinks.action, links_in_force in *.
  fold (link_type cl a).
  change (negb (SuperLinks.IDNAME =? SuperLinks.IDNAME)%string) with false. cbv iota.
  destruct g as [L [m|]]; simpl in *.
  - apply dict_has_true in Hin. by rewrite Hin.
  - apply dict_has_true in Hin. by rewrite Hin.
Qed.

(** The URL of a record entry and of a string entry. *)
Lemma link_url_record stringify L ty e a d u :
  L !! ty = Some (SuperLinks.UDict d) ->
  SuperLinks.d_url d = Some u ->
  url_of (SuperLinks.get_link_text stringify L ty e a)
  = Ok (join_url u (if SuperLinks.d_encode d then PyStr.quote_plus (stringify e)
                    else stringify e)).
Proof.
  intros HL Hu. unfold SuperLinks.get_link_text, join_url. rewrite HL, Hu.
  by destruct (SuperLinks.d_encode d).
Qed.

Lemma link_url_string stringify L ty e a s :
  L !! ty = Some (SuperLinks.UStr s) ->
  SuperLinks.get_link_text stringify L ty e a
  = Ok (shown_text a (stringify e), join_url s (stringify e)).
Proof.
  intros HL. unfold SuperLinks.get_link_text, join_url, shown_text. rewrite HL.
  by destruct (a !! "title") as [[|??]|].
Qed.








(** C4, as the code has it: when the entry is a record, the text shown is
    wrapped between [before] and [after], each taken from the attribute of
    the node when the node has it, be it empty, else from the record, else
    empty. *)
Theorem link_text_wrapped stringify c cl a doc g d u :
  links_in_force doc g !! link_type cl a = Some (SuperLinks.UDict d) ->
  SuperLinks.d_url d = Some u ->
  let before := match a !! "before" with
                | Some v => v
                | None => match SuperLinks.d_before d with
                          | Some v => v
                          | None => ""
                          end
                end in
  let after := match a !! "after" with
               | Some v => v
               | None => match SuperLinks.d_after d with
                         | Some v => v
                         | None => ""
                         end
               end in
  let base := stringify (Span c SuperLinks.IDNAME cl a) in
  exists url g',
    SuperLinks.action stringify (Span c SuperLinks.IDNAME cl a) doc g
    = Ok (RElem (Link [Str (before ++ shown_text a base ++ after)] url "" cl a), g').
Proof.
  intros HL Hu before after base.
  rewrite link_action_matched by (by rewrite HL).
  unfold SuperLinks.get_link_text. rewrite HL, Hu.
  eexists _, _. unfold mbind, outcome_bind. do 3 f_equal.
  f_equal. f_equal. f_equal.
  subst before after base. unfold shown_text.
  rewrite string_app_assoc.
  destruct (a !! "title") as [[|??]|], (a !! "before"), (a !! "after"),
    (SuperLinks.d_before d), (SuperLinks.d_after d); reflexivity.
Qed.

Lemma link_text_wrapped_witness :
  exists url g',
    SuperLinks.action flatten
      (Span [Str "1233211"] SuperLinks.IDNAME ["pubmed"] {[ "after" := "!" ]})
      (SuperLinks.mkDoc "html" None) SuperLinks.fresh
    = Ok (RElem (Link [Str "pubmed:1233211!"] url "" ["pubmed"] {[ "after" := "!" ]}), g').
Proof.
  pose proof (link_text_wrapped flatten [Str "1233211"] ["pubmed"] {[ "after" := "!" ]}
                (SuperLinks.mkDoc "html" None) SuperLinks.fresh
                (SuperLinks.mkLinkDict (Some "https://pubmed.ncbi.nlm.nih.gov/") false
                   (Some "pubmed:") None)
                "https://pubmed.ncbi.nlm.nih.gov/") as H.
  apply H.
  - vm_compute. reflexivity.
  - reflexivity.
Defined.

(** A [before] attribute that is present and empty: the spec's resolver
    falls back to the ["pubmed:"] of the record, the code shows the bare
    text. *)
Lemma empty_before_attribute_wins :
  exists url g',
    SuperLinks.action flatten
      (Span [Str "1233211"] "l" ["pubmed"] {[ "before" := "" ]})
      (SuperLinks.mkDoc "html" None) SuperLinks.fresh
    = Ok (RElem (Link [Str "1233211"] url "" ["pubmed"] {[ "before" := "" ]}), g')
    /\ "1233211"
       <> spec_resolve {[ "before" := "" ]} "before" "pubmed:"
          ++ "1233211" ++ spec_resolve {[ "before" := "" ]} "after" "".
Proof.
  eexists _, _. split; [vm_compute; reflexivity|].
  vm_compute. discriminate.
Qed.

(** When the entry is a string, [before] and [after] on the node are not
    read at all. *)
Example string_entry_ignores_before :
  exists g',
    SuperLinks.action flatten
      (Span [Str "repo"] "l" ["github"] {[ "before" := "gh:" ]})
      (SuperLinks.mkDoc "html" None) SuperLinks.fresh
    = Ok (RElem (Link [Str "repo"] "https://github.com/repo" "" ["github"]
                      {[ "before" := "gh:" ]}), g').
Proof. eexists. vm_compute. reflexivity. Qed.

(** ** The environment rule *)

(** The loop written inside [walk] is [walk_list]. *)
Lemma walk_eq action e doc :
  DivsToLatex.walk action e doc
  = (let '(c', doc1) := DivsToLatex.walk_list action (children e) doc in
     let '(altered, doc2) := action (with_children e c') doc1 in
     (default (with_children e c') altered, doc2)).
Proof.
  destruct e; try reflexivity; cbn [children with_children];
    set (r := DivsToLatex.walk_list action content doc);
    match goal with
    | |- DivsToLatex.walk action ?e0 doc = _ =>
        change (DivsToLatex.walk action e0 doc) with
          (let '(self, d) := (let '(c', d) := r in (with_children e0 c', d)) in
           let '(altered, d2) := action self d in (default self altered, d2))
    end;
    by destruct r.
Qed.

Lemma inject_eq m e :
  inject m e
  = match inject_list m (children e) with
    | Some c' => Some (with_children e c')
    | None => if is_para e then Some (Para (m :: children e)) else None
    end.
Proof.
  destruct e; try reflexivity. cbn [children with_children is_para].
  set (r := inject_list m content).
  change (inject m (Para content)) with (Some (Para (default (m :: content) r))).
  by destruct r.
Qed.

Lemma has_para_eq e :
  has_para e = is_para e || existsb has_para (children e).
Proof. by destruct e. Qed.

(** Without a pending marker the walk changes nothing. *)
Lemma walk_no_marker e doc :
  DivsToLatex.div doc = None ->
  DivsToLatex.walk DivsToLatex.add_before_first_paragraph e doc = (e, doc).
Proof.
  intros Hd. induction e as [e IH] using Elem_children_ind.
  rewrite walk_eq.
  assert (DivsToLatex.walk_list DivsToLatex.add_before_first_paragraph (children e) doc
          = (children e, doc)) as ->.
  { induction IH as [|x l Hx _ IHl]; simpl; [done|]. by rewrite Hx, IHl. }
  unfold DivsToLatex.add_before_first_paragraph. rewrite Hd. simpl.
  by destruct e.
Qed.

Lemma walk_list_no_marker l doc :
  DivsToLatex.div doc = None ->
  DivsToLatex.walk_list DivsToLatex.add_before_first_paragraph l doc = (l, doc).
Proof.
  intros Hd. induction l as [|x l IH]; simpl; [done|].
  by rewrite walk_no_marker, IH.
Qed.

(** The walk with its marker handed over through [doc.div] does what the
    recursive helper does: the marker goes into the first [Para] and
    [doc.div] is deleted, or nothing changes and the marker stays. *)
Lemma walk_inject e doc env title label :
  DivsToLatex.div doc = Some (env, title, label) ->
  DivsToLatex.walk DivsToLatex.add_before_first_paragraph e doc
  = match inject (DivsToLatex.latex ("\begin{" ++ env ++ "}" ++ title ++ label)) e with
    | Some e' => (e', DivsToLatex.set_div doc None)
    | None => (e, doc)
    end.
Proof.
  intros Hd. induction e as [e IH] using Elem_children_ind.
  rewrite walk_eq, inject_eq.
  set (m := DivsToLatex.latex _) in *.
  assert (DivsToLatex.walk_list DivsToLatex.add_before_first_paragraph (children e) doc
          = match inject_list m (children e) with
            | Some l' => (l', DivsToLatex.set_div doc None)
            | None => (children e, doc)
            end) as ->.
  { induction IH as [|x l Hx _ IHl]; simpl; [done|].
    rewrite Hx. destruct (inject m x) as [x'|].
    - by rewrite walk_list_no_marker.
    - rewrite IHl. by destruct (inject_list m l). }
  destruct (inject_list m (children e)) as [c'|].
  - unfold DivsToLatex.add_before_first_paragraph. simpl. done.
  - unfold DivsToLatex.add_before_first_paragraph. rewrite Hd.
    destruct e; try done.
Qed.

Lemma inject_no_para m e : has_para e = false -> inject m e = None.
Proof.
  induction e as [e IH] using Elem_children_ind.
  rewrite has_para_eq, inject_eq. intros [Hp Hc]%orb_false_elim. rewrite Hp.
  assert (inject_list m (children e) = None) as ->; [|done].
  induction IH as [|x l Hx _ IHl]; simpl in *; [done|].
  apply orb_false_elim in Hc as [Hx' Hl]. by rewrite Hx, IHl.
Qed.

Lemma inject_list_no_para m l :
  existsb has_para l = false -> inject_list m l = None.
Proof.
  induction l as [|x l IH]; simpl; [done|].
  intros [Hx Hl]%orb_false_elim. by rewrite inject_no_para, IH.
Qed.


Lemma inject_list_length m l l' :
  inject_list m l = Some l' -> length l' = length l.
Proof.
  revert l'. induction l as [|x l IH]; intros l'; simpl; [done|].
  destruct (inject m x); [by intros [= <-]|].
  destruct (inject_list m l) as [r|]; simpl; [|done].
  intros [= <-]. simpl. by rewrite (IH r).
Qed.

Lemma divs_action_matched c i div_ cl a doc table env :
  DivsToLatex.div_env doc = Some table ->
  table !! div_ = Some env ->
  fst (DivsToLatex.action (Div c i (div_ :: cl) a) doc)
  = Div (default c (inject_list (RawInline (opening env i a) "tex") c) ++ [closing env])
        i (div_ :: cl) a.
Proof.
  intros Hmeta Henv. unfold DivsToLatex.action. rewrite Hmeta.
  cbn [DivsToLatex.falsy default].
  rewrite bool_decide_eq_false_2 by (intros ->; by rewrite lookup_empty in Henv).
  unfold id. rewrite Henv.
  erewrite walk_inject by reflexivity.
  rewrite inject_eq. cbn [children with_children is_para].
  unfold opening, closing, DivsToLatex.latex.
  by destruct (inject_list _ c).
Qed.



(** ** The target format *)

Lemma divs_format_irrelevant e f1 f2 env d :
  fst (DivsToLatex.action e (DivsToLatex.mkDoc f1 env d))
  = fst (DivsToLatex.action e (DivsToLatex.mkDoc f2 env d)).
Proof.
  destruct e; try reflexivity.
  destruct env as [table|]; [|reflexivity].
  destruct classes as [|div_ cl].
  { unfold DivsToLatex.action. cbn [DivsToLatex.div_env DivsToLatex.falsy].
    by destruct (bool_decide _). }
  destruct (table !! div_) as [env|] eqn:E.
  - by rewrite !(divs_action_matched _ _ _ _ _ _ table env).
  - unfold DivsToLatex.action. cbn [DivsToLatex.div_env DivsToLatex.falsy default].
    destruct (bool_decide _); [done|]. unfold id. by rewrite E.
Qed.

(** C2: neither rule looks at the target format. On [html] the column
    rule splits the [Div] and the environment rule injects its markers;
    both rules give the same node for any two formats. *)
Theorem format_is_not_consulted :
  TwoCol.action
    (Div [Para [Str "L"]; HorizontalRule; Para [Str "R"]] "" ["twocol"] ∅)
    (TwoCol.mkDoc "html")
  = Ok (RElem (Div [ Div [Para [Str "L"]] "" ["column"] ∅;
                     Div [Para [Str "R"]] "" ["column"] ∅ ] "" ["columns"] ∅))
  /\ DivsToLatex.action
       (Div [Para [Str "x"]] "" ["ubuntu"] ∅)
       (DivsToLatex.mkDoc "html" (Some {[ "ubuntu" := "bash" ]}) None)
     = (Div [ Para [RawInline "\begin{bash}" "tex"; Str "x"];
              Plain [RawInline "\end{bash}" "tex"] ] "" ["ubuntu"] ∅,
        DivsToLatex.mkDoc "html" (Some {[ "ubuntu" := "bash" ]}) None)
  /\ (forall elem f1 f2,
        TwoCol.action elem (TwoCol.mkDoc f1) = TwoCol.action elem (TwoCol.mkDoc f2))
  /\ (forall elem f1 f2 env d,
        fst (DivsToLatex.action elem (DivsToLatex.mkDoc f1 env d))
        = fst (DivsToLatex.action elem (DivsToLatex.mkDoc f2 env d))).
Proof.
  split; [vm_compute; reflexivity|].
  split; [vm_compute; reflexivity|].
  split; [reflexivity|].
  intros. apply divs_format_irrelevant.
Qed.

(** * Further properties of the four filters *)

(** ** More on strings *)

Lemma drop_app p s : PyStr.drop (String.length p) (p ++ s) = s.
Proof. induction p as [|a p IH]; [done|]. exact IH. Qed.

Lemma removeprefix_app p s : PyStr.removeprefix p (p ++ s) = s.
Proof. unfold PyStr.removeprefix. by rewrite startswith_app, drop_app. Qed.

Lemma startswith_longer w x :
  x <> "" -> PyStr.startswith (w ++ x) w = false.
Proof.
  intros Hx. induction w as [|a w IH].
  - by destruct x.
  - change (String a w ++ x) with (String a (w ++ x)). simpl.
    by rewrite Ascii.eqb_refl.
Qed.

Lemma split_once_no_char c sep W rest :
  no_char c W = true ->
  PyStr.split_once (String c sep) (W ++ String c sep ++ rest) = Some (W, rest).
Proof.
  intros HW. induction W as [|a W IH].
  - change ("" ++ String c sep ++ rest) with (String c sep ++ rest).
    destruct (String c sep ++ rest) eqn:E; [done|].
    unfold PyStr.split_once. rewrite <- E.
    rewrite startswith_app, drop_app. by destruct (String c sep ++ rest).
  - simpl in HW. apply andb_true_iff in HW as [Ha HW].
    change (String a W ++ String c sep ++ rest)
      with (String a (W ++ String c sep ++ rest)).
    cbn [PyStr.split_once PyStr.startswith].
    rewrite Ascii.eqb_sym. apply negb_true_iff in Ha. rewrite Ha.
    fold PyStr.split_once. by rewrite (IH HW).
Qed.

(** ** The admonition rule: what the first call returns *)

Lemma app_nonempty (a b : string) : b <> "" -> a ++ b <> "".
Proof. destruct a; [done|]. intros _. discriminate. Qed.

Lemma admonition_first_shape stringify c doc :
  let table := dict_merge Admonitions.ADMONITIONS (Admonitions.get_metadata doc) in
  let text := stringify (Para c) in
  let w := nth 0 (PyStr.split ": " 1 text) "" in
  Admonitions.action stringify (Para c) doc Admonitions.fresh
  = Ok (match table !! w with
        | Some cls =>
            if (String.length text =? 0)%nat then RNone
            else admonition (Admonitions.format doc) cls
                   (PyStr.removeprefix (w ++ ": ") text)
        | None => RNone
        end,
        {| Admonitions.META := Some (Admonitions.get_metadata doc) |}).
Proof.
  intros table text w. unfold Admonitions.action.
  simpl Admonitions.META. cbv iota beta.
  fold text. fold w. fold table. unfold admonition.
  destruct (String.length text =? 0)%nat; [by destruct (table !! w)|].
  destruct (table !! w); [|done].
  by destruct (bool_decide _).
Qed.

(** X1: whatever the first paragraph of a run is rewritten into comes from
    a configured word [w] and keeps the rest of the text: either the text
    is [w], [": "] and the new text, or the text is [w] alone and is
    carried over whole. The class is the entry of [w], and the shape
    depends on the target format only. *)
Theorem admonition_first_call_sound stringify c doc r g :
  Admonitions.action stringify (Para c) doc Admonitions.fresh = Ok (r, g) ->
  r = RNone
  \/ exists w cls newtext,
       dict_merge Admonitions.ADMONITIONS (Admonitions.get_metadata doc) !! w = Some cls
       /\ (stringify (Para c) = w ++ ": " ++ newtext
           \/ (stringify (Para c) = w /\ newtext = w))
       /\ r = admonition (Admonitions.format doc) cls newtext.
Proof.
  rewrite admonition_first_shape.
  set (text := stringify (Para c)).
  set (w := nth 0 (PyStr.split ": " 1 text) "").
  intros H.
  assert (r = match dict_merge Admonitions.ADMONITIONS (Admonitions.get_metadata doc) !! w with
              | Some cls =>
                  if (String.length text =? 0)%nat then RNone
                  else admonition (Admonitions.format doc) cls
                         (PyStr.removeprefix (w ++ ": ") text)
              | None => RNone
              end) as -> by congruence.
  clear H.
  destruct (dict_merge Admonitions.ADMONITIONS (Admonitions.get_metadata doc) !! w)
    as [cls|] eqn:E; [|by left].
  destruct (String.length text =? 0)%nat; [by left|].
  right. exists w, cls, (PyStr.removeprefix (w ++ ": ") text).
  split; [done|]. split; [|done].
  destruct (first_word_cases ": " text) as [Hw|Hw]; fold w in Hw.
  - left. unfold PyStr.removeprefix. rewrite Hw.
    apply startswith_drop in Hw. by rewrite <- string_app_assoc.
  - right. split; [done|].
    clearbody w text. subst w.
    unfold PyStr.removeprefix. by rewrite startswith_longer.
Qed.

Lemma admonition_first_call_sound_witness :
  RElem (Div [Para [Str "use a cache"]] "" ["tip"] ∅) = RNone
  \/ exists w cls newtext,
       dict_merge Admonitions.ADMONITIONS
         (Admonitions.get_metadata (Admonitions.mkDoc "html" None)) !! w = Some cls
       /\ (flatten (Para [Str "TIP:"; Space; Str "use a cache"]) = w ++ ": " ++ newtext
           \/ (flatten (Para [Str "TIP:"; Space; Str "use a cache"]) = w /\ newtext = w))
       /\ RElem (Div [Para [Str "use a cache"]] "" ["tip"] ∅)
          = admonition (Admonitions.format (Admonitions.mkDoc "html" None)) cls newtext.
Proof.
  apply (admonition_first_call_sound flatten [Str "TIP:"; Space; Str "use a cache"]
           (Admonitions.mkDoc "html" None) _ {| Admonitions.META := Some ∅ |}).
  vm_compute. reflexivity.
Defined.

(** X2: on the first paragraph of a run, a text made of a word without
    colon, [": "] and a rest is rewritten around the rest whenever the word
    is configured; the class is the one of the document metadata when they
    have the word, and the built-in one otherwise. *)
Theorem admonition_rewrites_configured_word stringify c doc W cls rest :
  no_char ":" W = true ->
  stringify (Para c) = W ++ ": " ++ rest ->
  match Admonitions.get_metadata doc !! W with
  | Some own => Some own
  | None => Admonitions.ADMONITIONS !! W
  end = Some cls ->
  Admonitions.action stringify (Para c) doc Admonitions.fresh
  = Ok (admonition (Admonitions.format doc) cls rest,
        {| Admonitions.META := Some (Admonitions.get_metadata doc) |}).
Proof.
  intros HW Htext Hcls. rewrite admonition_first_shape. rewrite Htext.
  cbn [PyStr.split]. rewrite (split_once_no_char ":" " " W rest HW).
  cbn [nth]. unfold dict_merge. rewrite lookup_union.
  replace (Admonitions.get_metadata doc !! W ∪ Admonitions.ADMONITIONS !! W)
    with (Some cls)
    by (destruct (Admonitions.get_metadata doc !! W) as [own|];
        [injection Hcls as ->; by destruct (Admonitions.ADMONITIONS !! W)
        | by rewrite Hcls]).
  destruct (String.length (W ++ ": " ++ rest) =? 0)%nat eqn:E.
  - apply length_zero_iff in E. by apply app_nonempty in E.
  - by rewrite <- string_app_assoc, removeprefix_app.
Qed.

Lemma admonition_rewrites_configured_word_witness :
  Admonitions.action flatten (Para [Str "TIP:"; Space; Str "rest"])
    (Admonitions.mkDoc "beamer" (Some {[ "TIP" := "hint" ]})) Admonitions.fresh
  = Ok (admonition "beamer" "hint" "rest",
        {| Admonitions.META := Some {[ "TIP" := "hint" ]} |}).
Proof.
  pose proof (admonition_rewrites_configured_word flatten
                [Str "TIP:"; Space; Str "rest"]
                (Admonitions.mkDoc "beamer" (Some {[ "TIP" := "hint" ]}))
                "TIP" "hint" "rest") as H.
  apply H; reflexivity.
Defined.

(** ** The admonition rule: which runs get through *)

Lemma admonition_not_para stringify e doc g :
  is_para e = false -> Admonitions.action stringify e doc g = Ok (RNone, g).
Proof. by destruct e. Qed.

Lemma admonition_later_empty stringify c doc g :
  is_Some (Admonitions.META g) ->
  stringify (Para c) = "" ->
  Admonitions.action stringify (Para c) doc g = Ok (RNone, g).
Proof.
  intros [m Hm] Ht. unfold Admonitions.action. by rewrite Hm, Ht.
Qed.

Lemma bind_ok_iff {A B : Type} (m : outcome A) (k : A -> outcome B) :
  (forall a, exists b, k a = Ok b) ->
  (exists out, m ≫= k = Ok out) <-> (exists a, m = Ok a).
Proof.
  intros Hk. destruct m as [a|e]; unfold mbind, outcome_bind; split.
  - by eexists.
  - intros _. apply Hk.
  - by intros [??].
  - by intros [??].
Qed.

Lemma visit_step_ok stringify doc nodes r g :
  (exists out,
     ('(rs, g2) ← Admonitions.visit stringify nodes doc g; Ok (r :: rs, g2)) = Ok out)
  <-> (exists out, Admonitions.visit stringify nodes doc g = Ok out).
Proof. apply bind_ok_iff. intros [rs g2]. by eexists. Qed.

Lemma admonition_later_run stringify doc nodes g :
  is_Some (Admonitions.META g) ->
  (exists out, Admonitions.visit stringify nodes doc g = Ok out)
  <-> Forall (fun e => stringify e = "") (List.filter is_para nodes).
Proof.
  intros Hg. induction nodes as [|e nodes IH].
  - simpl. split; [constructor | by eexists].
  - cbn [Admonitions.visit List.filter].
    destruct (is_para e) eqn:Hp.
    + destruct e; try discriminate.
      destruct (String.eqb_spec (stringify (Para content)) "") as [Ht|Ht].
      * rewrite admonition_later_empty by done.
        unfold mbind at 1, outcome_bind at 1.
        rewrite visit_step_ok, IH, Forall_cons.
        split; [by intros ? | by intros [_ ?]].
      * rewrite admonition_later_call by done.
        rewrite Forall_cons. split; [by intros [? ?] | by intros [? _]].
    + rewrite admonition_not_para by done.
      unfold mbind at 1, outcome_bind at 1.
      by rewrite visit_step_ok, IH.
Qed.

(** X3: a run of the admonition filter gets through exactly when every
    paragraph after the first one has an empty text; nodes that are not
    paragraphs never matter. *)
Theorem admonition_run_succeeds_iff stringify doc nodes :
  (exists out, Admonitions.visit stringify nodes doc Admonitions.fresh = Ok out)
  <-> match List.filter is_para nodes with
      | [] => True
      | _ :: later => Forall (fun e => stringify e = "") later
      end.
Proof.
  induction nodes as [|e nodes IH].
  - simpl. split; [done | by eexists].
  - cbn [Admonitions.visit List.filter].
    destruct (is_para e) eqn:Hp.
    + destruct e; try discriminate.
      destruct (admonition_first_call stringify content doc) as [r ->].
      unfold mbind at 1, outcome_bind at 1.
      rewrite visit_step_ok.
      apply admonition_later_run. by eexists.
    + rewrite admonition_not_para by done.
      unfold mbind at 1, outcome_bind at 1.
      by rewrite visit_step_ok, IH.
Qed.

Lemma admonition_run_succeeds_iff_witness :
  exists out,
    Admonitions.visit flatten
      [HorizontalRule; Para [Str "NOTE:"; Space; Str "x"]; Plain [Str "y"]; Para []]
      (Admonitions.mkDoc "html" None) Admonitions.fresh = Ok out.
Proof.
  apply (admonition_run_succeeds_iff flatten). simpl. by repeat constructor.
Defined.

(** ** The link rule: the table of a run *)

Lemma settled_eq doc g :
  settled doc g
  = {| SuperLinks.LINKS := links_in_force doc g;
       SuperLinks.META :=
         Some (default (SuperLinks.get_metadata doc) (SuperLinks.META g)) |}.
Proof. unfold settled, links_in_force. by destruct g as [L [m|]]. Qed.

Lemma settled_twice doc doc' g : settled doc' (settled doc g) = settled doc g.
Proof. by destruct g as [L [m|]]. Qed.

Lemma links_action_globals stringify e doc g r g' :
  SuperLinks.action stringify e doc g = Ok (r, g') ->
  g' = if is_span e then settled doc g else g.
Proof.
  unfold SuperLinks.action, settled.
  destruct e; cbn [is_span]; try by intros [= _ <-].
  destruct (negb _); [by intros [= _ <-]|].
  destruct (negb _); [by intros [= _ <-]|].
  destruct (SuperLinks.get_link_text _ _ _ _) as [[??]|]; [|done].
  by intros [= _ <-].
Qed.

(** X4: over a whole run of the link filter the globals change once, at
    the first [Span] visited, matched or not: from there on the table is
    the merge made with the metadata of that moment, and a run without any
    [Span] leaves the globals alone. Every visited node gets its answer. *)
Theorem links_run_table stringify doc nodes g rs g' :
  SuperLinks.visit stringify nodes doc g = Ok (rs, g') ->
  g' = (if existsb is_span nodes then settled doc g else g)
  /\ length rs = length nodes.
Proof.
  revert g rs g'. induction nodes as [|e nodes IH]; intros g rs g'.
  - by intros [= <- <-].
  - cbn [SuperLinks.visit existsb].
    destruct (SuperLinks.action stringify e doc g) as [[r g1]|] eqn:Ha; [|done].
    unfold mbind at 1, outcome_bind at 1.
    destruct (SuperLinks.visit stringify nodes doc g1) as [[rs' g2]|] eqn:Hv; [|done].
    unfold mbind, outcome_bind. intros [= <- <-].
    apply links_action_globals in Ha. apply IH in Hv as [-> Hlen].
    split; [|by cbn [length]; rewrite Hlen].
    subst g1. destruct (is_span e), (existsb is_span nodes); cbn [orb]; try done.
    apply settled_twice.
Qed.

Lemma links_run_table_witness :
  {| SuperLinks.LINKS := dict_merge SuperLinks.LINKS0 {[ "foo" := SuperLinks.UStr "https://hello.co" ]};
     SuperLinks.META := Some {[ "foo" := SuperLinks.UStr "https://hello.co" ]} |}
  = (if existsb is_span [Str "a"; Span [Str "FOO"] "l" ["foo"] ∅; Span [Str "b"] "x" [] ∅]
     then settled (SuperLinks.mkDoc "html" (Some {[ "foo" := SuperLinks.UStr "https://hello.co" ]}))
            SuperLinks.fresh
     else SuperLinks.fresh)
  /\ length [RNone; RElem (Link [Str "FOO"] "https://hello.co/FOO" "" ["foo"] ∅); RNone]
     = length [Str "a"; Span [Str "FOO"] "l" ["foo"] ∅; Span [Str "b"] "x" [] ∅].
Proof.
  apply (links_run_table flatten
           (SuperLinks.mkDoc "html" (Some {[ "foo" := SuperLinks.UStr "https://hello.co" ]}))
           [Str "a"; Span [Str "FOO"] "l" ["foo"] ∅; Span [Str "b"] "x" [] ∅]
           SuperLinks.fresh).
  vm_compute. reflexivity.
Defined.

(** ** The link rule: answers and errors *)

Lemma link_action_inv stringify e doc g e' g' :
  SuperLinks.action stringify e doc g = Ok (RElem e', g') ->
  exists c cl a text url,
    e = Span c SuperLinks.IDNAME cl a /\ e' = Link [Str text] url "" cl a.
Proof.
  unfold SuperLinks.action. destruct e; try done.
  destruct (String.eqb_spec identifier SuperLinks.IDNAME) as [->|]; [|done].
  cbn [negb]. destruct (negb _); [done|].
  destruct (SuperLinks.get_link_text _ _ _ _) as [[text url]|]; [|done].
  unfold mbind, outcome_bind. intros [= <- _]. by eexists _, _, _, _, _.
Qed.

(** X5: what the link rule puts out is a [Link] with one [Str], the classes
    and attributes of the [Span] and no identifier, and only a [Span] with
    identifier [l] is ever replaced; the rule leaves its own output alone
    when it meets it again. *)
Theorem link_rule_idempotent stringify e doc g e' g' doc' :
  SuperLinks.action stringify e doc g = Ok (RElem e', g') ->
  (exists c cl a text url,
     e = Span c SuperLinks.IDNAME cl a /\ e' = Link [Str text] url "" cl a)
  /\ SuperLinks.action stringify e' doc' g' = Ok (RNone, g').
Proof.
  intros H. pose proof (link_action_inv _ _ _ _ _ _ H) as Hinv.
  split; [done|]. by destruct Hinv as (c & cl & a & text & url & _ & ->).
Qed.

Lemma link_rule_idempotent_witness :
  (exists c cl a text url,
     Span [Str "1233211"] "l" [] {[ "type" := "pubmed" ]} = Span c SuperLinks.IDNAME cl a
     /\ Link [Str "pubmed:1233211"] "https://pubmed.ncbi.nlm.nih.gov/1233211" "" []
          {[ "type" := "pubmed" ]}
        = Link [Str text] url "" cl a)
  /\ SuperLinks.action flatten
       (Link [Str "pubmed:1233211"] "https://pubmed.ncbi.nlm.nih.gov/1233211" "" []
          {[ "type" := "pubmed" ]})
       (SuperLinks.mkDoc "latex" None)
       (settled (SuperLinks.mkDoc "html" None) SuperLinks.fresh)
     = Ok (RNone, settled (SuperLinks.mkDoc "html" None) SuperLinks.fresh).
Proof.
  apply (link_rule_idempotent flatten
           (Span [Str "1233211"] "l" [] {[ "type" := "pubmed" ]})
           (SuperLinks.mkDoc "html" None) SuperLinks.fresh).
  vm_compute. reflexivity.
Defined.

Lemma links_in_force_settled doc g :
  SuperLinks.LINKS (settled doc g) = links_in_force doc g.
Proof. by rewrite settled_eq. Qed.

Lemma link_action_unfold stringify c i cl a doc g :
  SuperLinks.action stringify (Span c i cl a) doc g
  = if negb (String.eqb i SuperLinks.IDNAME) then Ok (RNone, settled doc g)
    else if negb (dict_has (link_type cl a) (links_in_force doc g))
         then Ok (RNone, settled doc g)
         else '(text, url) ← SuperLinks.get_link_text stringify (links_in_force doc g)
                                (link_type cl a) (Span c i cl a) a;
              Ok (RElem (Link [Str text] url "" cl a), settled doc g).
Proof.
  unfold SuperLinks.action. fold (settled doc g). fold (link_type cl a).
  by rewrite links_in_force_settled.
Qed.



(** X7: a [type] attribute that names no entry stops the rule: the first
    class is not tried in its place, whatever it is. *)
Theorem link_unknown_type_no_fallback stringify c i cl a doc g t :
  a !! "type" = Some t ->
  links_in_force doc g !! t = None ->
  SuperLinks.action stringify (Span c i cl a) doc g = Ok (RNone, settled doc g).
Proof.
  intros Ht HL. rewrite link_action_unfold.
  destruct (negb _); [done|].
  unfold link_type. rewrite Ht. unfold dict_has. rewrite HL.
  by rewrite bool_decide_eq_false_2 by (by intros [??]).
Qed.

Lemma link_unknown_type_no_fallback_witness :
  SuperLinks.action flatten
    (Span [Str "Arabidopsis"] "l" ["wiki"] {[ "type" := "wikipedia" ]})
    (SuperLinks.mkDoc "html" None) SuperLinks.fresh
  = Ok (RNone, settled (SuperLinks.mkDoc "html" None) SuperLinks.fresh).
Proof.
  apply (link_unknown_type_no_fallback flatten _ _ _ _ _ _ "wikipedia");
    vm_compute; reflexivity.
Defined.

(** X8: when the entry is a string, the link shows the non-empty [title]
    or else the text, unwrapped, and its URL is the string, a slash if
    the string does not end in one, and the text as it is: [before],
    [after] and any encoding play no part. *)
Theorem link_string_entry stringify c cl a doc g s :
  links_in_force doc g !! link_type cl a = Some (SuperLinks.UStr s) ->
  let base := stringify (Span c SuperLinks.IDNAME cl a) in
  SuperLinks.action stringify (Span c SuperLinks.IDNAME cl a) doc g
  = Ok (RElem (Link [Str (shown_text a base)] (join_url s base) "" cl a),
        settled doc g).
Proof.
  intros HL base. rewrite link_action_unfold, String.eqb_refl. cbn [negb].
  unfold dict_has. rewrite bool_decide_eq_true_2 by (by rewrite HL; eexists).
  cbn [negb]. by rewrite (link_url_string _ _ _ _ _ s HL).
Qed.

Lemma link_string_entry_witness :
  SuperLinks.action flatten
    (Span [Str "rocq"] SuperLinks.IDNAME ["github"] {[ "before" := "gh:"; "title" := "Rocq" ]})
    (SuperLinks.mkDoc "html" None) SuperLinks.fresh
  = Ok (RElem (Link [Str "Rocq"] "https://github.com/rocq" "" ["github"]
                 {[ "before" := "gh:"; "title" := "Rocq" ]}),
        settled (SuperLinks.mkDoc "html" None) SuperLinks.fresh).
Proof.
  pose proof (link_string_entry flatten [Str "rocq"] ["github"]
                {[ "before" := "gh:"; "title" := "Rocq" ]}
                (SuperLinks.mkDoc "html" None) SuperLinks.fresh
                "https://github.com/") as H.
  apply H. vm_compute. reflexivity.
Defined.

(** ** The link rule: encoding *)

Lemma quote_plus_safe s :
  all_chars PyStr.always_safe s = true -> PyStr.quote_plus s = s.
Proof.
  induction s as [|c s IH]; [done|]. cbn [all_chars PyStr.quote_plus].
  intros [Hc Hs]%andb_true_iff. by rewrite Hc, (IH Hs).
Qed.

Lemma hex_digit_safe n : (n < 16)%nat -> PyStr.always_safe (PyStr.hex_digit n) = true.
Proof.
  intros H. do 16 (destruct n as [|n]; [reflexivity|]). lia.
Qed.

Lemma quote_plus_chars s : all_chars url_char (PyStr.quote_plus s) = true.
Proof.
  induction s as [|c s IH]; [done|]. cbn [PyStr.quote_plus].
  destruct (PyStr.always_safe c) eqn:Hc.
  - cbn [all_chars]. unfold url_char at 1. by rewrite Hc, IH.
  - destruct (Ascii.eqb c " "); cbn [all_chars]; rewrite ?IH.
    + reflexivity.
    + assert (nat_of_ascii c < 256)%nat as Hb by apply nat_ascii_bounded.
      unfold url_char at 2 3.
      rewrite !hex_digit_safe.
      * reflexivity.
      * apply Nat.mod_upper_bound. lia.
      * apply Nat.Div0.div_lt_upper_bound. lia.
Qed.

Lemma all_chars_no_char p c s :
  p c = false -> all_chars p s = true -> no_char c s = true.
Proof.
  intros Hp. induction s as [|x s IH]; [done|]. cbn [all_chars no_char].
  intros [Hx Hs]%andb_true_iff. rewrite (IH Hs), andb_true_r.
  destruct (Ascii.eqb_spec x c) as [->|]; [congruence|done].
Qed.

(** X9: with a record entry, a text made of letters, digits, [_], [.],
    [-] and [~] only gives the same URL whether [encode] is set or not. *)
Theorem link_encode_keeps_safe_text stringify L ty e a d u :
  L !! ty = Some (SuperLinks.UDict d) ->
  SuperLinks.d_url d = Some u ->
  all_chars PyStr.always_safe (stringify e) = true ->
  url_of (SuperLinks.get_link_text stringify L ty e a)
  = Ok (join_url u (stringify e)).
Proof.
  intros HL Hu Hsafe. rewrite (link_url_record _ _ _ _ _ d u HL Hu).
  by rewrite quote_plus_safe, Tauto.if_same.
Qed.

Lemma link_encode_keeps_safe_text_witness :
  url_of (SuperLinks.get_link_text flatten SuperLinks.LINKS0 "wiki"
            (Span [Str "Arabidopsis_thaliana"] "l" ["wiki"] ∅) ∅)
  = Ok (join_url "https://en.wikipedia.org/wiki"
          (flatten (Span [Str "Arabidopsis_thaliana"] "l" ["wiki"] ∅))).
Proof.
  apply (link_encode_keeps_safe_text flatten SuperLinks.LINKS0 "wiki" _ ∅
           (SuperLinks.mkLinkDict (Some "https://en.wikipedia.org/wiki") true
              (Some "") (Some "")));
    vm_compute; reflexivity.
Defined.

(** X10: with a record entry that sets [encode], what follows the target
    and its slash in the URL is made of letters, digits, [_ . - ~], [+]
    and [%] only: no blank, slash, question mark, hash or ampersand of the
    text gets into the URL as it is. *)
Theorem link_encoded_tail_is_clean stringify L ty e a d u :
  L !! ty = Some (SuperLinks.UDict d) ->
  SuperLinks.d_url d = Some u ->
  SuperLinks.d_encode d = true ->
  exists tail,
    url_of (SuperLinks.get_link_text stringify L ty e a) = Ok (join_url u tail)
    /\ all_chars url_char tail = true
    /\ no_char " " tail = true /\ no_char "/" tail = true
    /\ no_char "?" tail = true /\ no_char "#" tail = true
    /\ no_char "&" tail = true.
Proof.
  intros HL Hu He. exists (PyStr.quote_plus (stringify e)).
  rewrite (link_url_record _ _ _ _ _ d u HL Hu), He.
  pose proof (quote_plus_chars (stringify e)) as H.
  repeat split; try done; by apply (all_chars_no_char url_char).
Qed.

Lemma link_encoded_tail_is_clean_witness :
  exists tail,
    url_of (SuperLinks.get_link_text flatten SuperLinks.LINKS0 "wiki"
              (Span [Str "a/b"; Space; Str "c&d?"] "l" ["wiki"] ∅) ∅)
    = Ok (join_url "https://en.wikipedia.org/wiki" tail)
    /\ all_chars url_char tail = true
    /\ no_char " " tail = true /\ no_char "/" tail = true
    /\ no_char "?" tail = true /\ no_char "#" tail = true
    /\ no_char "&" tail = true.
Proof.
  apply (link_encoded_tail_is_clean flatten SuperLinks.LINKS0 "wiki" _ ∅
           (SuperLinks.mkLinkDict (Some "https://en.wikipedia.org/wiki") true
              (Some "") (Some "")));
    vm_compute; reflexivity.
Defined.

(** ** The column rule: every answer *)

Lemma is_rule_true e : TwoCol.is_rule e = true -> e = HorizontalRule.
Proof. by destruct e. Qed.

Lemma rulers_head i content p ps :
  TwoCol.rulers i content = p :: ps ->
  exists pre post,
    content = (pre ++ HorizontalRule :: post)%list /\ no_rule pre
    /\ p = (i + length pre)%nat.
Proof.
  revert i. induction content as [|e content IH]; intros i; [done|].
  cbn [TwoCol.rulers]. destruct (TwoCol.is_rule e) eqn:He.
  - intros [= <- _]. apply is_rule_true in He as ->.
    exists [], content. split; [done|]. split; [constructor|]. simpl. lia.
  - intros (pre & post & -> & Hpre & ->)%IH.
    exists (e :: pre), post. split; [done|].
    split; [by constructor|]. simpl. lia.
Qed.

Lemma twocol_action_inv content i cl a doc e' :
  TwoCol.action (Div content i cl a) doc = Ok (RElem e') ->
  exists cl' pre post,
    cl = TwoCol.DIVNAME :: cl' /\ no_rule pre
    /\ content = (pre ++ HorizontalRule :: post)%list
    /\ e' = Div [ Div pre "" ["column"] (left_attributes a);
                  Div post "" ["column"] (right_attributes a) ] "" ["columns"] ∅.
Proof.
  intros H.
  destruct cl as [|c0 cl']; [done|].
  destruct (String.eqb_spec c0 TwoCol.DIVNAME) as [->|Hne].
  - destruct (TwoCol.rulers 0 content) as [|p ps] eqn:Er.
    + unfold TwoCol.action in H. rewrite Er in H. done.
    + apply rulers_head in Er as (pre & post & -> & Hpre & _).
      rewrite twocol_action_split in H by done.
      injection H as <-. by exists cl', pre, post.
  - unfold TwoCol.action in H.
    destruct (String.eqb_spec c0 TwoCol.DIVNAME); done.
Qed.

(** X11: the column rule replaces a node exactly when it is a [Div] whose
    first class is [twocol] and which has a [HorizontalRule] among its
    children; the replacement is then the two columns cut at the first
    rule, so that the children of the left column, one rule and the
    children of the right column are the children of the [Div], in order. *)
Theorem twocol_replaces_iff content i cl a doc e' :
  TwoCol.action (Div content i cl a) doc = Ok (RElem e')
  <-> exists cl' pre post,
        cl = TwoCol.DIVNAME :: cl' /\ no_rule pre
        /\ content = (pre ++ HorizontalRule :: post)%list
        /\ e' = Div [ Div pre "" ["column"] (left_attributes a);
                      Div post "" ["column"] (right_attributes a) ] "" ["columns"] ∅.
Proof.
  split; [apply twocol_action_inv|].
  intros (cl' & pre & post & -> & Hpre & -> & ->). by apply twocol_action_split.
Qed.

Lemma twocol_replaces_iff_witness :
  exists cl' pre post,
    ["twocol"; "onlytextwidth"] = TwoCol.DIVNAME :: cl' /\ no_rule pre
    /\ [Para [Str "a"]; HorizontalRule; HorizontalRule] = (pre ++ HorizontalRule :: post)%list
    /\ Div [ Div [Para [Str "a"]] "" ["column"] ∅;
             Div [HorizontalRule] "" ["column"] ∅ ] "" ["columns"] ∅
       = Div [ Div pre "" ["column"] (left_attributes ∅);
               Div post "" ["column"] (right_attributes ∅) ] "" ["columns"] ∅.
Proof.
  apply (twocol_replaces_iff [Para [Str "a"]; HorizontalRule; HorizontalRule] "id"
           ["twocol"; "onlytextwidth"] ∅ (TwoCol.mkDoc "beamer")).
  vm_compute. reflexivity.
Defined.

(** X12: the column rule raises on a [Div] with an empty class list
    ([IndexError]) and on nothing else; the branch that would hand an
    empty list to [Div] as a child is never taken. *)
Theorem twocol_only_error e doc ex :
  TwoCol.action e doc = Raise ex
  <-> ex = IndexError /\ exists c i a, e = Div c i [] a.
Proof.
  split.
  - destruct e; try done.
    destruct classes as [|c0 cl]; [intros [= <-]; split; [done|]; by eexists _, _, _|].
    intros H. exfalso.
    destruct (String.eqb_spec c0 TwoCol.DIVNAME) as [->|Hne].
    + destruct (TwoCol.rulers 0 content) as [|p ps] eqn:Er.
      * unfold TwoCol.action in H. by rewrite Er in H.
      * apply rulers_head in Er as (pre & post & -> & Hpre & _).
        by rewrite twocol_action_split in H.
    + unfold TwoCol.action in H.
      destruct (String.eqb_spec c0 TwoCol.DIVNAME); done.
  - by intros [-> (c & i & a & ->)].
Qed.

Lemma twocol_only_error_witness :
  TwoCol.action (Div [Para [Str "x"]; HorizontalRule] "" [] ∅) (TwoCol.mkDoc "beamer")
  = Raise IndexError.
Proof.
  apply twocol_only_error. split; [done|]. by eexists _, _, _.
Defined.

(** ** The column rule: the attributes of the columns *)

Lemma split_once_char_before c s a b :
  PyStr.split_once (String c "") s = Some (a, b) -> no_char c a = true.
Proof.
  revert a b. induction s as [|x s IH]; intros a b; [done|].
  cbn [PyStr.split_once PyStr.startswith].
  destruct (Ascii.eqb_spec c x) as [->|Hne].
  - by intros [= <- _].
  - fold PyStr.split_once.
    destruct (PyStr.split_once (String c "") s) as [[a' b']|]; [|done].
    intros [= <- <-]. cbn [no_char]. rewrite (IH a' b' eq_refl), andb_true_r.
    apply negb_true_iff. by apply Ascii.eqb_neq.
Qed.

Lemma split_once_None_no_char c s :
  PyStr.split_once (String c "") s = None -> no_char c s = true.
Proof.
  induction s as [|x s IH]; [done|].
  cbn [PyStr.split_once PyStr.startswith no_char].
  destruct (Ascii.eqb_spec c x) as [->|Hne]; [done|].
  fold PyStr.split_once.
  destruct (PyStr.split_once (String c "") s) as [[a' b']|]; [done|].
  intros _. rewrite IH by done. rewrite andb_true_r.
  apply negb_true_iff. by apply Ascii.eqb_neq.
Qed.

Lemma before_comma_free v : no_char "," (before_comma v) = true.
Proof.
  unfold before_comma.
  destruct (PyStr.split_once "," v) as [[a b]|] eqn:E.
  - by apply (split_once_char_before "," v a b).
  - by apply split_once_None_no_char.
Qed.

Lemma second_value_free v : no_char "," (second_value v) = true.
Proof.
  unfold second_value.
  destruct (PyStr.split_once "," v) as [[a b]|] eqn:E.
  - apply before_comma_free.
  - by apply split_once_None_no_char.
Qed.

Lemma left_attributes_dom a : dom (left_attributes a) = dom a.
Proof.
  apply set_eq. intros k. rewrite !elem_of_dom, left_attributes_lookup.
  case_bool_decide; [|done]. by rewrite fmap_is_Some.
Qed.

Lemma right_attributes_dom a : dom (right_attributes a) = dom a.
Proof.
  apply set_eq. intros k. rewrite !elem_of_dom, right_attributes_lookup.
  case_bool_decide; [|done]. by rewrite fmap_is_Some.
Qed.

(** X13: each of the two columns carries exactly the attribute names of
    the [Div] that was split: none is lost, none is added, [align] and
    [width] included. *)
Theorem twocol_columns_keep_names i cl a doc pre post :
  no_rule pre ->
  exists la ra,
    TwoCol.action (Div (pre ++ HorizontalRule :: post) i (TwoCol.DIVNAME :: cl) a) doc
    = Ok (RElem (Div [ Div pre "" ["column"] la; Div post "" ["column"] ra ]
                     "" ["columns"] ∅))
    /\ dom la = dom a /\ dom ra = dom a.
Proof.
  intros Hpre. exists (left_attributes a), (right_attributes a).
  split; [by apply twocol_action_split|].
  split; [apply left_attributes_dom | apply right_attributes_dom].
Qed.

Lemma twocol_columns_keep_names_witness :
  exists la ra,
    TwoCol.action
      (Div ([Para [Str "L"]] ++ HorizontalRule :: [Para [Str "R"]]) "" [TwoCol.DIVNAME]
           {[ "width" := "30%,70%"; "lang" := "en" ]})
      (TwoCol.mkDoc "beamer")
    = Ok (RElem (Div [ Div [Para [Str "L"]] "" ["column"] la;
                       Div [Para [Str "R"]] "" ["column"] ra ] "" ["columns"] ∅))
    /\ dom la = dom ({[ "width" := "30%,70%"; "lang" := "en" ]} : gmap string string)
    /\ dom ra = dom ({[ "width" := "30%,70%"; "lang" := "en" ]} : gmap string string).
Proof.
  apply (twocol_columns_keep_names "" [] _ (TwoCol.mkDoc "beamer")
           [Para [Str "L"]] [Para [Str "R"]]).
  repeat constructor.
Defined.

(** X14: the [align] and the [width] that a column receives never contain
    a comma, however many commas the value on the [Div] has. *)
Theorem twocol_column_values_comma_free i cl a doc pre post :
  no_rule pre ->
  exists la ra,
    TwoCol.action (Div (pre ++ HorizontalRule :: post) i (TwoCol.DIVNAME :: cl) a) doc
    = Ok (RElem (Div [ Div pre "" ["column"] la; Div post "" ["column"] ra ]
                     "" ["columns"] ∅))
    /\ forall k v,
         k = "align" \/ k = "width" ->
         la !! k = Some v \/ ra !! k = Some v ->
         no_char "," v = true.
Proof.
  intros Hpre. exists (left_attributes a), (right_attributes a).
  split; [by apply twocol_action_split|].
  intros k v Hk. rewrite left_attributes_lookup, right_attributes_lookup.
  rewrite bool_decide_eq_true_2 by done.
  intros [H|H]; apply fmap_Some in H as (x & _ & ->).
  - apply before_comma_free.
  - apply second_value_free.
Qed.

Lemma twocol_column_values_comma_free_witness :
  exists la ra,
    TwoCol.action
      (Div ([Para [Str "L"]] ++ HorizontalRule :: [Para [Str "R"]]) "" [TwoCol.DIVNAME]
           {[ "align" := "top,center,bottom,top" ]})
      (TwoCol.mkDoc "beamer")
    = Ok (RElem (Div [ Div [Para [Str "L"]] "" ["column"] la;
                       Div [Para [Str "R"]] "" ["column"] ra ] "" ["columns"] ∅))
    /\ forall k v,
         k = "align" \/ k = "width" ->
         la !! k = Some v \/ ra !! k = Some v ->
         no_char "," v = true.
Proof.
  apply (twocol_column_values_comma_free "" [] _ (TwoCol.mkDoc "beamer")
           [Para [Str "L"]] [Para [Str "R"]]).
  repeat constructor.
Defined.

(** X15: what the column rule puts out does not set it off again: on the
    [columns] [Div] and on each of its two [column] [Div]s the rule
    answers [None]. *)
Theorem twocol_output_is_stable e doc e' doc' :
  TwoCol.action e doc = Ok (RElem e') ->
  TwoCol.action e' doc' = Ok RNone
  /\ Forall (fun col => TwoCol.action col doc' = Ok RNone) (children e').
Proof.
  intros H. destruct e; try done.
  apply twocol_action_inv in H as (cl' & pre & post & _ & _ & _ & ->).
  split; [reflexivity|]. by repeat constructor.
Qed.

Lemma twocol_output_is_stable_witness :
  let out := Div [ Div [Para [Str "L"]] "" ["column"] ∅;
                   Div [Div [] "" ["twocol"] ∅] "" ["column"] ∅ ] "" ["columns"] ∅ in
  TwoCol.action out (TwoCol.mkDoc "beamer") = Ok RNone
  /\ Forall (fun col => TwoCol.action col (TwoCol.mkDoc "beamer") = Ok RNone) (children out).
Proof.
  intros out.
  apply (twocol_output_is_stable
           (Div [Para [Str "L"]; HorizontalRule; Div [] "" ["twocol"] ∅] "" ["twocol"] ∅)
           (TwoCol.mkDoc "beamer")).
  vm_compute. reflexivity.
Defined.

(** ** The environment rule: when it acts and what it leaves behind *)

Lemma with_children_same e : with_children e (children e) = e.
Proof. by destruct e. Qed.

Lemma inject_has_para m e : has_para e = true -> is_Some (inject m e).
Proof.
  induction e as [e IH] using Elem_children_ind.
  rewrite has_para_eq, inject_eq. intros H.
  destruct (inject_list m (children e)) as [c'|] eqn:E; [by eexists|].
  destruct (is_para e); [by eexists|]. exfalso.
  cbn [orb] in H. clear -IH H E.
  induction IH as [|x l Hx _ IHl]; [done|].
  cbn [existsb inject_list] in *.
  destruct (has_para x) eqn:Hp.
  - destruct (Hx eq_refl) as [x' Hx']. by rewrite Hx' in E.
  - destruct (inject m x); [done|].
    destruct (inject_list m l); [done|]. by apply IHl.
Qed.

Lemma inject_list_has_para m l :
  existsb has_para l = true -> is_Some (inject_list m l).
Proof.
  induction l as [|x l IH]; [done|]. cbn [existsb inject_list].
  destruct (has_para x) eqn:Hp.
  - intros _. destruct (inject_has_para m x Hp) as [x' ->]. by eexists.
  - intros H. destruct (inject m x); [by eexists|].
    destruct (IH H) as [l' ->]. by eexists.
Qed.

Lemma divs_action_matched_doc c i div_ cl a doc table env :
  DivsToLatex.div_env doc = Some table ->
  table !! div_ = Some env ->
  snd (DivsToLatex.action (Div c i (div_ :: cl) a) doc)
  = DivsToLatex.set_div doc
      (match inject_list (RawInline (opening env i a) "tex") c with
       | Some _ => None
       | None => Some (pending env i a)
       end).
Proof.
  intros Hmeta Henv. unfold DivsToLatex.action. rewrite Hmeta.
  cbn [DivsToLatex.falsy default].
  rewrite bool_decide_eq_false_2 by (intros ->; by rewrite lookup_empty in Henv).
  unfold id. rewrite Henv.
  erewrite walk_inject by reflexivity.
  rewrite inject_eq. cbn [children with_children is_para].
  unfold opening, pending, DivsToLatex.latex.
  by destruct (inject_list _ c).
Qed.

Lemma divs_action_unmatched e doc :
  env_of e doc = None -> DivsToLatex.action e doc = (e, doc).
Proof.
  destruct e; try reflexivity. unfold env_of, DivsToLatex.action.
  destruct classes as [|c0 cl]; [by destruct (DivsToLatex.falsy _)|].
  destruct (DivsToLatex.div_env doc) as [table|]; [|done].
  intros H. cbn [DivsToLatex.falsy default]. unfold id. rewrite H.
  by destruct (bool_decide _).
Qed.

(** X16: the environment rule hands a node back as it was, and leaves
    [doc] as it was, exactly when the node is not a [Div] whose first
    class has an entry in the ['div-env'] table of the metadata; with no
    table, or an empty one, that is every node. *)
Theorem divs_kept_iff_unmatched e doc :
  DivsToLatex.action e doc = (e, doc) <-> env_of e doc = None.
Proof.
  split; [|apply divs_action_unmatched].
  destruct (env_of e doc) as [env|] eqn:E; [|done].
  intros H. exfalso. unfold env_of in E.
  destruct e; try done. destruct classes as [|c0 cl]; [done|].
  destruct (DivsToLatex.div_env doc) as [table|] eqn:Ht; [|done].
  apply (f_equal fst) in H.
  rewrite (divs_action_matched _ _ _ _ _ _ table env Ht E) in H.
  cbn [fst] in H. injection H as H. apply (f_equal length) in H.
  rewrite length_app in H. cbn [length] in H.
  destruct (inject_list _ content) as [l'|] eqn:Ei;
    cbn [default from_option] in H; unfold id in H.
  - apply inject_list_length in Ei. lia.
  - lia.
Qed.

Lemma divs_kept_iff_unmatched_witness :
  DivsToLatex.action (Div [Para [Str "x"]] "" ["note"] ∅)
    (DivsToLatex.mkDoc "latex" (Some {[ "ubuntu" := "bash" ]}) None)
  = (Div [Para [Str "x"]] "" ["note"] ∅,
     DivsToLatex.mkDoc "latex" (Some {[ "ubuntu" := "bash" ]}) None).
Proof.
  apply divs_kept_iff_unmatched. vm_compute. reflexivity.
Defined.

(** X17: after a matched [Div] the temporary [doc.div] is gone exactly
    when the [Div] has a [Para] somewhere below it; without one the triple
    of environment, title and label stays on [doc]. The format and the
    metadata of [doc] are not touched. *)
Theorem divs_marker_left_iff_no_para c i div_ cl a doc table env :
  DivsToLatex.div_env doc = Some table ->
  table !! div_ = Some env ->
  snd (DivsToLatex.action (Div c i (div_ :: cl) a) doc)
  = DivsToLatex.set_div doc
      (if existsb has_para c then None else Some (pending env i a)).
Proof.
  intros Hmeta Henv.
  rewrite (divs_action_matched_doc _ _ _ _ _ _ table env Hmeta Henv).
  destruct (existsb has_para c) eqn:Hp.
  - by destruct (inject_list_has_para (RawInline (opening env i a) "tex") c Hp) as [l' ->].
  - by rewrite inject_list_no_para.
Qed.

Lemma divs_marker_left_iff_no_para_witness :
  snd (DivsToLatex.action (Div [Plain [Str "x"]] "b1" ["ubuntu"] {[ "title" := "T" ]})
         (DivsToLatex.mkDoc "latex" (Some {[ "ubuntu" := "bash" ]}) None))
  = DivsToLatex.set_div (DivsToLatex.mkDoc "latex" (Some {[ "ubuntu" := "bash" ]}) None)
      (if existsb has_para [Plain [Str "x"]] then None
       else Some (pending "bash" "b1" {[ "title" := "T" ]})).
Proof.
  apply (divs_marker_left_iff_no_para _ _ _ _ _ _ {[ "ubuntu" := "bash" ]}); reflexivity.
Defined.

(** X18: the environment rule never changes what a node is: the result has
    the constructor, identifier, classes and attributes of the node, with
    as many children or one more, and [doc] keeps its format and its
    metadata. *)
Theorem divs_keeps_identity e doc :
  exists c',
    fst (DivsToLatex.action e doc) = with_children e c'
    /\ (length c' = length (children e) \/ length c' = S (length (children e)))
    /\ DivsToLatex.format (snd (DivsToLatex.action e doc)) = DivsToLatex.format doc
    /\ DivsToLatex.div_env (snd (DivsToLatex.action e doc)) = DivsToLatex.div_env doc.
Proof.
  destruct (env_of e doc) as [env|] eqn:E.
  - unfold env_of in E. destruct e; try done.
    destruct classes as [|c0 cl]; [done|].
    destruct (DivsToLatex.div_env doc) as [table|] eqn:Ht; [|done].
    rewrite (divs_action_matched _ _ _ _ _ _ table env Ht E).
    rewrite (divs_action_matched_doc _ _ _ _ _ _ table env Ht E).
    eexists. split; [reflexivity|]. split; [|done]. right.
    rewrite length_app. cbn [length children].
    destruct (inject_list _ content) as [l'|] eqn:Ei;
      cbn [default from_option]; unfold id.
    + apply inject_list_length in Ei. lia.
    + lia.
  - rewrite divs_action_unmatched by done. exists (children e).
    by rewrite with_children_same; auto.
Qed.


